(** * helly: entity structures and remote-error checks

    A shallow embedding of the classes [Message] and [Channel]
    ([src/structures/Message.ts], which holds both) and of the two response
    checks [verifyForStatusCode] and [verifyForJSONStatusCode], followed by
    the properties of the entity-caching specification that concern them.

    JavaScript values are modelled by [JsVal]; objects are finite maps from
    property names to values.  Numbers are the integer-valued ones (ids,
    status codes and error codes are integers); NaN, infinities and
    fractions are outside the model. *)

From Stdlib Require Import ZArith.
From stdpp Require Import base option list strings pretty gmap fin_maps.

Local Open Scope string_scope.
Local Open Scope Z_scope.

(** ** JavaScript values *)

Set Warnings "-register-all".

Inductive JsVal : Type :=
  | VUndef
  | VNull
  | VBool (b : bool)
  | VNum (n : Z)
  | VStr (s : string)
  | VArr (l : list JsVal)
  | VObj (o : gmap string JsVal).

(** A thrown JavaScript error: the constructor's name and its message. *)
Record JsError : Type := mkError { err_name : string; err_message : string }.

Definition TypeError (msg : string) : JsError := mkError "TypeError" msg.
Definition Error (msg : string) : JsError := mkError "Error" msg.

(** The outcome of evaluating an expression or calling a function. *)
Inductive Outcome (A : Type) : Type :=
  | Returned (a : A)
  | Threw (e : JsError).
Arguments Returned {A} a.
Arguments Threw {A} e.

Definition lift_bind {A B} (o : Outcome A) (k : A -> Outcome B) : Outcome B :=
  match o with
  | Returned a => k a
  | Threw e => Threw e
  end.

Fixpoint mapOutcome {A B} (f : A -> Outcome B) (l : list A) : Outcome (list B) :=
  match l with
  | [] => Returned []
  | x :: l' =>
      lift_bind (f x) (fun y =>
      lift_bind (mapOutcome f l') (fun ys => Returned (y :: ys)))
  end.

(** Code that reads and writes a state [S] and may throw: the state that
    a throwing call leaves behind is kept, as every assignment made before
    a JavaScript [throw] is. *)
Definition M (S A : Type) : Type := S -> Outcome A * S.

Definition ret {S A} (a : A) : M S A := fun s => (Returned a, s).

Definition throw {S A} (e : JsError) : M S A := fun s => (Threw e, s).

Definition bind {S A B} (m : M S A) (k : A -> M S B) : M S B :=
  fun s =>
    match m s with
    | (Returned a, s') => k a s'
    | (Threw e, s') => (Threw e, s')
    end.

Definition gets {S A} (f : S -> A) : M S A := fun s => (Returned (f s), s).

Definition modify {S} (f : S -> S) : M S unit := fun s => (Returned tt, f s).

Definition lift {S A} (o : Outcome A) : M S A := fun s => (o, s).

Notation "x <- c ;; k" := (bind c (fun x => k))
  (at level 100, c at next level, right associativity).
Notation "c ;; k" := (bind c (fun _ => k))
  (at level 100, right associativity).

(** [!v] is [negb (truthy v)]. *)
Definition truthy (v : JsVal) : bool :=
  match v with
  | VUndef | VNull => false
  | VBool b => b
  | VNum n => negb (n =? 0)
  | VStr s => negb (String.eqb s "")
  | VArr _ | VObj _ => true
  end.

(** [v === undefined || v === null], the test behind [??] and [?.]. *)
Definition nullish (v : JsVal) : bool :=
  match v with
  | VUndef | VNull => true
  | _ => false
  end.

(** [a ?? b] *)
Definition coalesce (a b : JsVal) : JsVal := if nullish a then b else a.

(** [a || b] *)
Definition or_else (a b : JsVal) : JsVal := if truthy a then a else b.

(** [typeof v === 'undefined'] *)
Definition typeof_undefined (v : JsVal) : bool :=
  match v with VUndef => true | _ => false end.

Definition indexed {A} (l : list A) : list (string * A) :=
  imap (fun i x => (pretty i, x)) l.

(** The characters of a string, one string each.  Strings are taken to be
    ASCII, where a character of the model is a code unit of JavaScript. *)
Definition chars (s : string) : list JsVal :=
  (fun a => VStr (String a EmptyString)) <$> String.list_ascii_of_string s.

(** The own enumerable properties of a value, as the object spread
    [{...v}] copies them: those of an object, the indices of an array or of
    a string, none for the other primitives. *)
Definition ownProps (v : JsVal) : gmap string JsVal :=
  match v with
  | VObj o => o
  | VArr l => list_to_map (indexed l)
  | VStr s => list_to_map (indexed (chars s))
  | _ => ∅
  end.

(** [v.k] for a property name [k] that is neither an index nor a built-in
    of a prototype ([id], [name], [type], [code], [content], ...): reading
    it off [undefined] or [null] throws, off an object it is the own
    property or [undefined], off any other value it is [undefined]. *)
Definition getProp (v : JsVal) (k : string) : Outcome JsVal :=
  match v with
  | VUndef =>
      Threw (TypeError ("Cannot read properties of undefined (reading '" +:+ k +:+ "')"))
  | VNull =>
      Threw (TypeError ("Cannot read properties of null (reading '" +:+ k +:+ "')"))
  | VObj o => Returned (default VUndef (o !! k))
  | _ => Returned VUndef
  end.

(** ['k' in v], for a property name [k] as in [getProp]: a [TypeError]
    unless [v] is an object or an array. *)
Definition hasProp (k : string) (v : JsVal) : Outcome bool :=
  match v with
  | VObj o => Returned (bool_decide (is_Some (o !! k)))
  | VArr _ => Returned false
  | _ => Threw (TypeError ("Cannot use 'in' operator to search for '" +:+ k +:+ "'"))
  end.

(** String conversion, as a template literal applies it.  A number is
    printed with all its digits, which is what JavaScript prints for an
    integer below 10^21 in absolute value; larger ones, which JavaScript
    prints with an exponent, are outside the model. *)
Fixpoint toString (v : JsVal) : string :=
  match v with
  | VUndef => "undefined"
  | VNull => "null"
  | VBool true => "true"
  | VBool false => "false"
  | VNum n => pretty n
  | VStr s => s
  | VArr l =>
      (fix join (l : list JsVal) : string :=
         match l with
         | [] => ""
         | [x] => if nullish x then "" else toString x
         | x :: l' => (if nullish x then "" else toString x) +:+ "," +:+ join l'
         end) l
  | VObj _ => "[object Object]"
  end.

(** ** The client: managers, their caches and the objects they hold

    Entities are objects with an identity of their own, so they live in a
    store and are referred to by location; a manager's cache maps identity
    keys to locations.  The client, the managers and their cache class, and
    the classes [Guild] and [User] are not among the sources. *)

Definition loc : Type := positive.

(** Modelled from the spec: a manager's [cache], the bounded cache (4.1),
    whose class is not among the sources.  A mapping from identity key to
    entity, iterated in insertion order, with a configured maximum entry
    count ([0]: unbounded). *)
Record Cache : Type := mkCache {
  entries : list (string * loc);
  maxSize : nat
}.

Fixpoint assoc (k : string) (l : list (string * loc)) : option loc :=
  match l with
  | [] => None
  | (k', v) :: l' => if String.eqb k k' then Some v else assoc k l'
  end.

(** Modelled from the spec: [cache.get(key)] of the bounded cache (4.1),
    whose class is not among the sources: the value under the key or
    absent, a read that changes nothing.  Keys are compared as
    [Map.prototype.get] compares them, without conversion, and the keys of
    a cache are the entities' id strings. *)
Definition cache_get (c : Cache) (key : JsVal) : option loc :=
  match key with
  | VStr k => assoc k (entries c)
  | _ => None
  end.

(** Modelled from the spec: a [User] entity (3), whose class is not among
    the sources: a mutable record holding the last-known raw payload. *)
Record User : Type := mkUser { user_data : JsVal }.

(** Modelled from the spec: a [Guild] entity (3), whose class is not among
    the sources: of its fields [Message] reads the identity key, [id]. *)
Record Guild : Type := mkGuild { guild_id : JsVal }.

(** A [Date] object, by the value it was built from. *)
Record JsDate : Type := mkDate { date_of : JsVal }.

(** The fields of a [Channel]; a field that was never assigned is
    [undefined] ([None] for the object-valued ones). *)
Record ChannelObj : Type := mkChannel {
  createdTimestamp : JsVal;
  createdAt : option JsDate;
  id : JsVal;
  name : JsVal;
  guild : option loc;
  type : JsVal
}.

(** A request handed to the transport: [requester.make(endpoint, method,
    body, headers)]. *)
Record Request : Type := mkRequest {
  req_endpoint : string;
  req_method : string;
  req_body : string;
  req_audit_reason : JsVal
}.

(** Modelled from the spec: the client (9), whose class is not among the
    sources.  It owns one manager per entity kind, each with its cache;
    [client.users.cache], [client.channels.cache] and [client.guilds.cache]
    are the ones [Message] reads.  The stores hold the entity objects, and
    [requests] the requests handed to the transport so far. *)
Record Client : Type := mkClient {
  users : Cache;
  channels : Cache;
  guilds : Cache;
  userObjs : gmap loc User;
  channelObjs : gmap loc ChannelObj;
  guildObjs : gmap loc Guild;
  requests : list Request
}.

(** Following a reference.  A reference always denotes an object in
    JavaScript; a location without an object can only come from an
    ill-formed model state and is reported as an error of its own. *)
Definition DanglingReference : JsError := mkError "DanglingReference" "".

Definition deref {A} (heap : Client -> gmap loc A) (l : loc) : M Client A :=
  fun c =>
    match heap c !! l with
    | Some o => (Returned o, c)
    | None => (Threw DanglingReference, c)
    end.

(** [type MessageOptions = string | MessagePayload], what [reply] is given:
    a string, or a payload object. *)
Inductive MessageOptions : Type :=
  | OptionsString (s : string)
  | OptionsPayload (o : gmap string JsVal).

(** ** Message (the first class of [src/structures/Message.ts]) *)

Module Message.

(** [private data: APIMessage], an object; [this.client] is the state the
    accessors run in. *)
Record t : Type := mk { data : gmap string JsVal }.

(** [this.data.k] *)
Definition get (m : t) (k : string) : JsVal := default VUndef (data m !! k).

(** [constructor(client, data) { super(client); this.data = data; }] *)
Definition constructor (d : gmap string JsVal) : M Client t := ret (mk d).

(** [get content() { return this.data.content || ''; }] *)
Definition content (m : t) : Outcome JsVal :=
  Returned (or_else (get m "content") (VStr "")).

(** [get id() { return this.data.id; }] *)
Definition id (m : t) : Outcome JsVal := Returned (get m "id").

(** [get pinned() { return this.data.pinned ?? false; }] *)
Definition pinned (m : t) : Outcome JsVal :=
  Returned (coalesce (get m "pinned") (VBool false)).

(** [get tts() { return this.data.tts ?? false; }] *)
Definition tts (m : t) : Outcome JsVal :=
  Returned (coalesce (get m "tts") (VBool false)).

(** [get channelId() { return this.data.channel_id; }] *)
Definition channelId (m : t) : JsVal := get m "channel_id".

(** [arr.map(f)] on a value: only an array has [map]. *)
Definition callMap (f : JsVal -> Outcome JsVal) (v : JsVal) : Outcome JsVal :=
  match v with
  | VArr l => lift_bind (mapOutcome f l) (fun l' => Returned (VArr l'))
  | VUndef =>
      Threw (TypeError "Cannot read properties of undefined (reading 'map')")
  | VNull =>
      Threw (TypeError "Cannot read properties of null (reading 'map')")
  | _ => Threw (TypeError "this.data.embeds.map is not a function")
  end.

Section Parsers.

(** [Parsers.messageComponents] and [new EmbedBuilder] are not among the
    sources; they are applied to each element and may throw. *)
Variable messageComponents : JsVal -> Outcome JsVal.
Variable EmbedBuilder : JsVal -> Outcome JsVal.

(** [get components() {
      return this.data.components?.map(c => Parsers.messageComponents(c)) ?? [];
    }] *)
Definition components (m : t) : Outcome JsVal :=
  let c := get m "components" in
  if nullish c then Returned (VArr [])
  else lift_bind (callMap messageComponents c)
         (fun r => Returned (coalesce r (VArr []))).

(** [get embeds() { return this.data.embeds.map(e => new EmbedBuilder(e)); }] *)
Definition embeds (m : t) : Outcome JsVal := callMap EmbedBuilder (get m "embeds").

End Parsers.

(** [get channel() {
      return this.channelId ? this.client.channels.cache.get(this.channelId) : undefined;
    }] *)
Definition channel (m : t) : M Client (option loc) :=
  if truthy (channelId m)
  then gets (fun c => cache_get (channels c) (channelId m))
  else ret None.

(** [this.channel?.guild] *)
Definition channel_guild (m : t) : M Client (option loc) :=
  ch <- channel m ;;
  match ch with
  | None => ret None
  | Some l => o <- deref channelObjs l ;; ret (guild o)
  end.

(** [get guildId() { return this.data.guild_id ?? this.channel?.guild?.id; }] *)
Definition guildId (m : t) : M Client JsVal :=
  if nullish (get m "guild_id") then
    g <- channel_guild m ;;
    match g with
    | None => ret VUndef
    | Some l => o <- deref guildObjs l ;; ret (guild_id o)
    end
  else ret (get m "guild_id").

(** [get guild() {
      return this.guildId
        ? this.client.guilds.cache.get(this.guildId) ?? this.channel?.guild
        : undefined;
    }] *)
Definition guild (m : t) : M Client (option loc) :=
  test <- guildId m ;;
  if truthy test then
    key <- guildId m ;;
    hit <- gets (fun c => cache_get (guilds c) key) ;;
    match hit with
    | Some l => ret (Some l)
    | None => channel_guild m
    end
  else ret None.

Section Author.

(** [this.client.users.updateOrSet(id, payload)]: the users manager is not
    among the sources. *)
Variable updateOrSet : JsVal -> JsVal -> M Client loc.

(** [get author() {
      return this.client.users.cache.get(this.data.author.id) ??
        this.client.users.updateOrSet(this.data.author.id, this.data.author);
    }] *)
Definition author (m : t) : M Client loc :=
  key <- lift (getProp (get m "author") "id") ;;
  hit <- gets (fun c => cache_get (users c) key) ;;
  match hit with
  | Some l => ret l
  | None =>
      key' <- lift (getProp (get m "author") "id") ;;
      updateOrSet key' (get m "author")
  end.

End Author.

(** [private parseData(data) {
      if (!data) return;
      this.data = { ...this.data, ...data };
    }] *)
Definition parseData (d : JsVal) : M t unit :=
  if negb (truthy d) then ret tt
  else modify (fun m => mk (ownProps d ∪ data m)).

(** A run of updates, one [parseData] call after the other. *)
Definition updates (ds : list JsVal) (m : t) : t :=
  foldl (fun m d => snd (parseData d m)) m ds.

(** [get url() {
      return `https://discord.com/channels/${this.guildId ?? '@me'}/${this.channelId}/${this.id}`;
    }] *)
Definition url (m : t) : M Client string :=
  g <- guildId m ;;
  ret ("https://discord.com/channels/" +:+ toString (coalesce g (VStr "@me"))
       +:+ "/" +:+ toString (channelId m) +:+ "/" +:+ toString (get m "id")).

(** [list.includes(v)] for a list of numbers: only a number is found. *)
Definition includes (l : list Z) (v : JsVal) : bool :=
  match v with
  | VNum n => bool_decide (n ∈ l)
  | _ => false
  end.

Section MessageType.

(** The members of the numeric enum [MessageType] of [discord-api-types]
    that [system] names. *)
Variables Default Reply ChatInputCommand ContextMenuCommand : Z.

(** [get system() {
      return ![MessageType.Default, MessageType.Reply,
               MessageType.ChatInputCommand, MessageType.ContextMenuCommand,
             ].includes(this.data.type);
    }] *)
Definition system (m : t) : bool :=
  negb (includes [Default; Reply; ChatInputCommand; ContextMenuCommand]
          (get m "type")).

End MessageType.

Section Reply.

(** [this.client.options.failIfNotExists] and the [send] method of the
    channel found ([send] is not a method of [Channel] itself) are not
    among the sources. *)
Variable failIfNotExists : JsVal.
Variable send : loc -> JsVal -> M Client JsVal.

(** [reply(content: MessageOptions | string) {
      const replyOptions = typeof content === 'string' ? { content } : content;
      replyOptions.messageReference = {
        messageId: this.id, channelId: this.channelId, guildId: this.guildId,
        failIfNotExists: this.client.options.failIfNotExists ?? false,
      };
      return this.channel?.send(replyOptions);
    }]

    The call gives back its outcome with the client it leaves, and the
    object [replyOptions] as it leaves it.  Nothing is copied when
    [content] is an object: [replyOptions] is then the caller's own object,
    and the assignment of [messageReference] is a write on it, made before
    the channel is looked up. *)
Definition reply (m : t) (content : MessageOptions) (c : Client)
    : (Outcome JsVal * Client) * gmap string JsVal :=
  let replyOptions : gmap string JsVal :=
    match content with
    | OptionsString s => {[ "content" := VStr s ]}
    | OptionsPayload o => o
    end in
  match guildId m c with
  | (Threw e, c1) => ((Threw e, c1), replyOptions)
  | (Returned g, c1) =>
      let reference : gmap string JsVal :=
        {[ "messageId" := get m "id";
           "channelId" := channelId m;
           "guildId" := g;
           "failIfNotExists" := coalesce failIfNotExists (VBool false) ]} in
      let written := <["messageReference" := VObj reference]> replyOptions in
      ((ch <- channel m ;;
        match ch with
        | None => ret VUndef
        | Some l => send l (VObj written)
        end) c1,
       written)
  end.

End Reply.

(** [override toString() { return this.content; }] *)
Definition toString (m : t) : Outcome JsVal := content m.

End Message.

(** ** Channel (the second class of [src/structures/Message.ts]) *)

Module Channel.

Definition set_id (v : JsVal) (c : ChannelObj) : ChannelObj :=
  mkChannel (createdTimestamp c) (createdAt c) v (name c) (guild c) (type c).

Definition set_createdTimestamp (v : JsVal) (c : ChannelObj) : ChannelObj :=
  mkChannel v (createdAt c) (id c) (name c) (guild c) (type c).

Definition set_createdAt (d : JsDate) (c : ChannelObj) : ChannelObj :=
  mkChannel (createdTimestamp c) (Some d) (id c) (name c) (guild c) (type c).

Definition set_name (v : JsVal) (c : ChannelObj) : ChannelObj :=
  mkChannel (createdTimestamp c) (createdAt c) (id c) v (guild c) (type c).

Definition set_type (v : JsVal) (c : ChannelObj) : ChannelObj :=
  mkChannel (createdTimestamp c) (createdAt c) (id c) (name c) (guild c) v.

(** The object as [super(client); this.guild = guild;] leaves it. *)
Definition blank (g : option loc) : ChannelObj :=
  mkChannel VUndef None VUndef VUndef g VUndef.

Section Constants.

(** [Snowflake.deconstruct] ([utils/Snowflake]) and the table
    [RawChannelTypes] ([constants/channelTypes]) are not among the sources:
    [deconstruct v] is the call's outcome and [RawChannelTypes v] is the
    value of the indexed read [RawChannelTypes[v]]. *)
Variable deconstruct : JsVal -> Outcome JsVal.
Variable RawChannelTypes : JsVal -> JsVal.

(** [override parseData(data: any) {
      if (typeof data === 'undefined') return null;
      if ('id' in data) { this.id = data.id; }
      this.createdTimestamp = Snowflake.deconstruct(this.id);
      this.createdAt = new Date(this.createdTimestamp);
      if ('name' in data) { this.name = data.name; }
      this.type = RawChannelTypes[data.type] ?? 'UNKNOWN';
    }] *)
Definition parseData (d : JsVal) : M ChannelObj JsVal :=
  if typeof_undefined d then ret VNull
  else
    hasId <- lift (hasProp "id" d) ;;
    (if hasId : bool
     then v <- lift (getProp d "id") ;; modify (set_id v)
     else ret tt) ;;
    this_id <- gets id ;;
    ts <- lift (deconstruct this_id) ;;
    modify (set_createdTimestamp ts) ;;
    this_ts <- gets createdTimestamp ;;
    modify (set_createdAt (mkDate this_ts)) ;;
    hasName <- lift (hasProp "name" d) ;;
    (if hasName : bool
     then v <- lift (getProp d "name") ;; modify (set_name v)
     else ret tt) ;;
    ty <- lift (getProp d "type") ;;
    modify (set_type (coalesce (RawChannelTypes ty) (VStr "UNKNOWN"))) ;;
    ret VUndef.

(** [constructor(client, data, guild?) {
      super(client); this.guild = guild; this.parseData(data);
    }]: the object under construction, and whether [parseData] threw. *)
Definition construct (d : JsVal) (g : option loc) : Outcome ChannelObj :=
  match parseData d (blank g) with
  | (Returned _, c) => Returned c
  | (Threw e, _) => Threw e
  end.

(** [new Channel(client, data, guild)]: a new object in the store. *)
Definition new (d : JsVal) (g : option loc) : M Client loc :=
  o <- lift (construct d g) ;;
  l <- gets (fun c => fresh (dom (channelObjs c))) ;;
  modify (fun c =>
    mkClient (users c) (channels c) (guilds c) (userObjs c)
      (<[l := o]> (channelObjs c)) (guildObjs c) (requests c)) ;;
  ret l.

(** Modelled from the spec: [this.client.requester.make(endpoint, method,
    body, headers)], awaited; the requester is the network transport (1,
    6), which is not among the sources.  The call hands the request over
    (it is recorded in [requests]) and resolves with the remote's answer or
    rejects, which [response] stands for; it touches no cache. *)
Definition requester_make (response : Outcome JsVal)
    (endpoint method body : string) (reason : JsVal) : M Client JsVal :=
  modify (fun c =>
    mkClient (users c) (channels c) (guilds c) (userObjs c) (channelObjs c)
      (guildObjs c) (requests c ++ [mkRequest endpoint method body reason])%list) ;;
  lift response.

(** [async delete(reason?: string) {
      const data = await this.client.requester.make(`channels/${this.id}`,
        'DELETE', '', { 'X-Audit-Log-Reason': reason });
      return new Channel(this.client, data, this.guild);
    }], called on the channel at [this]. *)
Definition delete (response : Outcome JsVal) (this : loc) (reason : JsVal)
    : M Client loc :=
  o <- deref channelObjs this ;;
  data <- requester_make response ("channels/" +:+ toString (id o)) "DELETE" ""
            reason ;;
  o' <- deref channelObjs this ;;
  new data (guild o').

(** A run of updates, one [parseData] call after the other; a call that
    throws leaves the object as it was at the throw. *)
Definition updates (ds : list JsVal) (c : ChannelObj) : ChannelObj :=
  foldl (fun c d => snd (parseData d c)) c ds.

End Constants.

(** [v === s] for a string literal [s]. *)
Definition is_string (s : string) (v : JsVal) : bool :=
  match v with
  | VStr s' => String.eqb s' s
  | _ => false
  end.

(** [isText() { return this.type === 'GUILD_TEXT'; }] *)
Definition isText (c : ChannelObj) : bool := is_string "GUILD_TEXT" (type c).

(** [isUnknown() { return this.type === 'UNKNOWN'; }] *)
Definition isUnknown (c : ChannelObj) : bool := is_string "UNKNOWN" (type c).

(** [override toString() { return `<#${this.id}>`; }] *)
Definition toString (c : ChannelObj) : string :=
  "<#" +:+ toString (id c) +:+ ">".

End Channel.

(** ** The users manager *)

Module UserManager.

Definition MalformedPayload (msg : string) : JsError :=
  mkError "MalformedPayload" msg.

Fixpoint replace (k : string) (v : loc) (l : list (string * loc))
    : list (string * loc) :=
  match l with
  | [] => []
  | (k', v') :: l' =>
      if String.eqb k k' then (k', v) :: l' else (k', v') :: replace k v l'
  end.

(** Modelled from the spec: the bounded cache's [set(key, value)] (4.1),
    whose class is not among the sources.  It inserts or replaces; a key
    that already exists keeps its position and evicts nothing; after an
    insertion the oldest entries are evicted until the size is within the
    maximum, where a maximum of [0] means unbounded. *)
Definition cache_set (k : string) (v : loc) (c : Cache) : Cache :=
  match assoc k (entries c) with
  | Some _ => mkCache (replace k v (entries c)) (maxSize c)
  | None =>
      let es := (entries c ++ [(k, v)])%list in
      match maxSize c with
      | O => mkCache es O
      | n => mkCache (drop (length es - n)%nat es) n
      end
  end.

(** Modelled from the spec: the users manager's [updateOrSet(id, payload)],
    the manager's upsert (4.3), which is not among the sources.  It looks
    the identity key up in the cache; if absent it constructs a new entity
    from the payload and sets it; if present it merges the payload into
    the existing entity (fields present overwrite, absent ones stay) and
    leaves it under the same key; it returns the entity.  A missing
    identity fails with [MalformedPayload] and changes nothing. *)
Definition updateOrSet (key payload : JsVal) : M Client loc :=
  match key with
  | VStr k =>
      hit <- gets (fun c => cache_get (users c) key) ;;
      match hit with
      | Some l =>
          u <- deref userObjs l ;;
          modify (fun c =>
            mkClient (users c) (channels c) (guilds c)
              (<[l := mkUser (VObj (ownProps payload ∪ ownProps (user_data u)))]>
                 (userObjs c))
              (channelObjs c) (guildObjs c) (requests c)) ;;
          ret l
      | None =>
          l <- gets (fun c => fresh (dom (userObjs c))) ;;
          modify (fun c =>
            mkClient (cache_set k l (users c)) (channels c) (guilds c)
              (<[l := mkUser payload]> (userObjs c))
              (channelObjs c) (guildObjs c) (requests c)) ;;
          ret l
      end
  | _ => throw (MalformedPayload "payload has no identity field")
  end.

End UserManager.

(** ** Remote rejections ([verifyForStatusCode], [verifyForJSONStatusCode]) *)

(** A request body ([BodyInit]), or none.  A body object (a buffer, a
    stream, form data, ...) is given by what string conversion and
    [JSON.stringify] make of it. *)
Inductive Body : Type :=
  | BodyUndefined
  | BodyNull
  | BodyString (s : string)
  | BodyObject (asString asJSON : string).

(** [${data ?? 'empty'}] *)
Definition body_or_empty (data : Body) : string :=
  match data with
  | BodyUndefined | BodyNull => "empty"
  | BodyString s => s
  | BodyObject str _ => str
  end.

(** [${typeof data === 'object' ? JSON.stringify(data) : data ?? 'empty'}] *)
Definition body_json_or_empty (data : Body) : string :=
  match data with
  | BodyNull => "null"
  | BodyObject _ json => json
  | BodyUndefined => "empty"
  | BodyString s => s
  end.

Definition new_line : string := String (Ascii.ascii_of_nat 10) EmptyString.

(** [\nEndpoint: ${endpoint}\nMethod: ${method}\nData: ...], the tail of
    every message. *)
Definition diagnostics (endpoint method rendered : string) : string :=
  new_line +:+ "Endpoint: " +:+ endpoint +:+ new_line +:+ "Method: " +:+ method
  +:+ new_line +:+ "Data: " +:+ rendered.

(** [function verifyForStatusCode(endpoint, data, code, method)] *)
Definition verifyForStatusCode (endpoint : string) (data : Body) (code : Z)
    (method : string) : Outcome unit :=
  if code =? 400 then
    Threw (Error ("DiscordAPIError: Bad Request (400)"
                  +:+ diagnostics endpoint method (body_or_empty data)))
  else if code =? 401 then
    Threw (Error ("DiscordAPIError: Not Authorized (401)"
                  +:+ diagnostics endpoint method (body_or_empty data)))
  else if code =? 403 then
    Threw (Error ("DiscordAPIError: Missing Permissions (403)"
                  +:+ diagnostics endpoint method (body_or_empty data)))
  else if code =? 404 then
    Threw (Error ("DiscordAPIError: Not Found (404)"
                  +:+ diagnostics endpoint method (body_or_empty data)))
  else Returned tt.

(** [function verifyForJSONStatusCode(jsonResponse, endpoint, data, method) {
      if (jsonResponse.code && jsonResponse.message) { throw new Error(...); }
    }] *)
Definition verifyForJSONStatusCode (jsonResponse : JsVal) (endpoint : string)
    (data : Body) (method : string) : Outcome unit :=
  lift_bind (getProp jsonResponse "code") (fun code =>
  lift_bind (if truthy code then getProp jsonResponse "message" else Returned code)
    (fun test =>
  if truthy test then
    lift_bind (getProp jsonResponse "message") (fun message =>
    lift_bind (getProp jsonResponse "code") (fun code' =>
    Threw (Error ("DiscordAPIError: " +:+ toString message +:+ " ("
                  +:+ toString code' +:+ ")"
                  +:+ diagnostics endpoint method (body_json_or_empty data)))))
  else Returned tt)).

(** ** Vocabulary of the properties *)

(** A computation that leaves the client as it found it: no cache entry
    added, removed or changed, no object touched, no request made. *)
Definition reads_only {A} (m : M Client A) : Prop := forall c, snd (m c) = c.

(** The payload [d] has no [id] field, or its [id] field is [i]. *)
Definition carries_no_other_id (i : JsVal) (d : JsVal) : Prop :=
  ownProps d !! "id" = None \/ ownProps d !! "id" = Some i.

(** [s] has [sub] somewhere inside. *)
Definition contains (sub s : string) : Prop :=
  exists pre post : string, s = pre +:+ sub +:+ post.

(** The transport status is one of bad-request, unauthorized, forbidden,
    not-found. *)
Definition status_rejected (code : Z) : Prop :=
  code = 400 \/ code = 401 \/ code = 403 \/ code = 404.

(** The structured response carries both a code and a message. *)
Definition carries_code_and_message (j : JsVal) : Prop :=
  exists o : gmap string JsVal,
    j = VObj o /\ is_Some (o !! "code") /\ is_Some (o !! "message").

(** The call throws. *)
Definition raises {A} (o : Outcome A) : Prop := exists e : JsError, o = Threw e.

(** * Properties *)

(** ** Updating a message *)

Lemma Message_parseData_falsy (d : JsVal) (m : Message.t) :
  truthy d = false -> Message.parseData d m = (Returned tt, m).
Proof. intros H. unfold Message.parseData. now rewrite H. Qed.

Lemma Message_parseData_truthy (d : JsVal) (m : Message.t) :
  truthy d = true ->
  Message.parseData d m = (Returned tt, Message.mk (ownProps d ∪ Message.data m)).
Proof. intros H. unfold Message.parseData. now rewrite H. Qed.

(** What a field holds after an update: the payload's value where the
    payload has the field, the old one elsewhere. *)
Lemma Message_parseData_lookup (d : JsVal) (m : Message.t) (k : string) :
  Message.data (snd (Message.parseData d m)) !! k =
    if truthy d
    then match ownProps d !! k with
         | Some v => Some v
         | None => Message.data m !! k
         end
    else Message.data m !! k.
Proof.
  destruct (truthy d) eqn:Ht.
  - rewrite Message_parseData_truthy by exact Ht. simpl.
    rewrite lookup_union.
    destruct (ownProps d !! k), (Message.data m !! k); reflexivity.
  - now rewrite Message_parseData_falsy.
Qed.

(** C1.  Partial-merge law, on [Message.parseData]: a message holding
    fields [A = x] and [B = y] that is updated with a payload containing
    only [A = x2] holds [A = x2] and [B = y] afterwards; in general, for
    any payload object, a field the payload lacks keeps its cached value
    and a field it has is overwritten. *)
Theorem message_partial_merge (m : Message.t) (A B : string) (x y x2 : JsVal) :
  A <> B ->
  Message.data m !! A = Some x ->
  Message.data m !! B = Some y ->
  let r := Message.parseData (VObj {[A := x2]}) m in
  fst r = Returned tt /\
  Message.data (snd r) !! A = Some x2 /\
  Message.data (snd r) !! B = Some y /\
  (forall (p : gmap string JsVal) (k : string),
     Message.data (snd (Message.parseData (VObj p) m)) !! k =
       match p !! k with
       | Some v => Some v
       | None => Message.data m !! k
       end).
Proof.
  intros Hne HA HB r. subst r. repeat split.
  - rewrite Message_parseData_lookup. simpl. now rewrite lookup_singleton_eq.
  - rewrite Message_parseData_lookup. simpl.
    rewrite lookup_singleton_ne by exact Hne. exact HB.
  - intros p k. now rewrite Message_parseData_lookup.
Qed.

Lemma message_partial_merge_witness :
  let m := Message.mk {[ "content" := VStr "hi"; "pinned" := VBool true ]} in
  let r := Message.parseData (VObj {[ "content" := VStr "edited" ]}) m in
  Message.data (snd r) !! "content" = Some (VStr "edited") /\
  Message.data (snd r) !! "pinned" = Some (VBool true).
Proof.
  intros m r.
  pose proof (message_partial_merge m "content" "pinned"
                (VStr "hi") (VBool true) (VStr "edited")) as H.
  destruct H as (_ & HA & HB & _).
  - discriminate.
  - reflexivity.
  - reflexivity.
  - split; [exact HA | exact HB].
Defined.

(** ** Updating a channel *)

Lemma Channel_parseData_undefined deconstruct RawChannelTypes (c : ChannelObj) :
  Channel.parseData deconstruct RawChannelTypes VUndef c = (Returned VNull, c).
Proof. reflexivity. Qed.

(** An object payload: the outcome of [parseData], field by field. *)
Lemma Channel_parseData_object deconstruct RawChannelTypes
    (o : gmap string JsVal) (c : ChannelObj) :
  let id' := default (id c) (o !! "id") in
  let c1 := if bool_decide (is_Some (o !! "id")) then Channel.set_id id' c else c in
  Channel.parseData deconstruct RawChannelTypes (VObj o) c =
    match deconstruct id' with
    | Threw e => (Threw e, c1)
    | Returned ts =>
        (Returned VUndef,
         mkChannel ts (Some (mkDate ts)) id' (default (name c) (o !! "name"))
           (guild c)
           (coalesce (RawChannelTypes (default VUndef (o !! "type")))
              (VStr "UNKNOWN")))
    end.
Proof.
  unfold Channel.parseData, bind, lift, modify, gets, ret. simpl.
  destruct (o !! "id") as [v|] eqn:Hid; simpl;
    (destruct (deconstruct _) as [ts|e]; simpl; [|reflexivity]);
    destruct (o !! "name") as [w|]; simpl; destruct c; reflexivity.
Qed.

(** An array payload has none of the fields [parseData] looks for. *)
Lemma Channel_parseData_array deconstruct RawChannelTypes
    (l : list JsVal) (c : ChannelObj) :
  Channel.parseData deconstruct RawChannelTypes (VArr l) c =
    match deconstruct (id c) with
    | Threw e => (Threw e, c)
    | Returned ts =>
        (Returned VUndef,
         mkChannel ts (Some (mkDate ts)) (id c) (name c) (guild c)
           (coalesce (RawChannelTypes VUndef) (VStr "UNKNOWN")))
    end.
Proof.
  unfold Channel.parseData, bind, lift, modify, gets, ret. simpl.
  destruct (deconstruct (id c)); simpl; destruct c; reflexivity.
Qed.

(** The [id] after one [parseData] call, whatever its outcome. *)
Lemma Channel_parseData_id deconstruct RawChannelTypes
    (d : JsVal) (c : ChannelObj) :
  id (snd (Channel.parseData deconstruct RawChannelTypes d c)) =
    match d with
    | VObj o => default (id c) (o !! "id")
    | _ => id c
    end.
Proof.
  destruct d as [| |b|n|s|l|o]; try reflexivity.
  - unfold Channel.parseData, bind, lift, modify, gets, ret. simpl.
    destruct (deconstruct _); reflexivity.
  - rewrite Channel_parseData_object.
    destruct (o !! "id") as [v|]; simpl; destruct (deconstruct _); reflexivity.
Qed.
Lemma Channel_updates_snoc deconstruct RawChannelTypes
    (ds : list JsVal) (d : JsVal) (c : ChannelObj) :
  Channel.updates deconstruct RawChannelTypes (ds ++ [d])%list c =
    snd (Channel.parseData deconstruct RawChannelTypes d
           (Channel.updates deconstruct RawChannelTypes ds c)).
Proof. unfold Channel.updates. now rewrite foldl_app. Qed.

Lemma Message_updates_snoc (ds : list JsVal) (d : JsVal) (m : Message.t) :
  Message.updates (ds ++ [d])%list m =
    snd (Message.parseData d (Message.updates ds m)).
Proof. unfold Message.updates. now rewrite foldl_app. Qed.

(** ** Identity under updates *)

Lemma Message_parseData_keeps_id (i d : JsVal) (m : Message.t) :
  carries_no_other_id i d ->
  Message.get m "id" = i ->
  Message.get (snd (Message.parseData d m)) "id" = i.
Proof.
  intros Hd Hm. unfold Message.get in *.
  rewrite Message_parseData_lookup.
  destruct (truthy d); [|exact Hm].
  destruct Hd as [-> | ->]; [exact Hm | reflexivity].
Qed.

Lemma Channel_parseData_keeps_id deconstruct RawChannelTypes
    (i d : JsVal) (c : ChannelObj) :
  carries_no_other_id i d ->
  id c = i ->
  id (snd (Channel.parseData deconstruct RawChannelTypes d c)) = i.
Proof.
  intros Hd Hc. rewrite Channel_parseData_id.
  destruct d as [| |b|n|s|l|o]; try exact Hc.
  unfold carries_no_other_id in Hd. simpl in Hd. destruct Hd as [-> | ->]; [exact Hc | reflexivity].
Qed.

Lemma Message_updates_keep_id (i : JsVal) (ds : list JsVal) (m : Message.t) :
  Forall (carries_no_other_id i) ds ->
  Message.get m "id" = i ->
  Message.get (Message.updates ds m) "id" = i.
Proof.
  induction ds as [|d ds IH] using rev_ind; intros Hall Hm.
  - exact Hm.
  - apply Forall_app in Hall as [Hds Hd].
    rewrite Message_updates_snoc.
    apply Message_parseData_keeps_id; [now inversion Hd | now apply IH].
Qed.

Lemma Channel_updates_keep_id deconstruct RawChannelTypes
    (i : JsVal) (ds : list JsVal) (c : ChannelObj) :
  Forall (carries_no_other_id i) ds ->
  id c = i ->
  id (Channel.updates deconstruct RawChannelTypes ds c) = i.
Proof.
  induction ds as [|d ds IH] using rev_ind; intros Hall Hc.
  - exact Hc.
  - apply Forall_app in Hall as [Hds Hd].
    rewrite Channel_updates_snoc.
    apply Channel_parseData_keeps_id; [now inversion Hd | now apply IH].
Qed.

(** C8, as stated, fails: an update whose payload carries another [id]
    replaces the identity key.  A message built from [{id: "1"}] and
    updated with [{id: "2"}] reads [id = "2"], and so does a channel. *)
Lemma identity_changed_by_update :
  let m := Message.mk {[ "id" := VStr "1" ]} in
  let c := Channel.set_id (VStr "1") (Channel.blank None) in
  let stamp := fun _ : JsVal => Returned (VNum 1420070400000) in
  let table := fun _ : JsVal => VUndef in
  Message.id m = Returned (VStr "1") /\
  Message.id (Message.updates [VObj {[ "id" := VStr "2" ]}] m)
    = Returned (VStr "2") /\
  Message.id (Message.updates [VObj {[ "id" := VStr "2" ]}] m) <> Message.id m /\
  id c = VStr "1" /\
  id (Channel.updates stamp table [VObj {[ "id" := VStr "2" ]}] c) = VStr "2".
Proof. repeat split. discriminate. Qed.

(** C8, amended.  Along any sequence of updates whose payloads each lack
    an [id] field or carry the entity's own id, the identity key read
    after each update (after every prefix of the sequence) is the one the
    entity had at the start, for a message and for a channel alike. *)
Theorem identity_stable_under_updates
    (deconstruct : JsVal -> Outcome JsVal) (RawChannelTypes : JsVal -> JsVal)
    (i : JsVal) (m : Message.t) (c : ChannelObj) (ds : list JsVal) (n : nat) :
  Message.id m = Returned i ->
  id c = i ->
  Forall (carries_no_other_id i) ds ->
  Message.id (Message.updates (take n ds) m) = Returned i /\
  id (Channel.updates deconstruct RawChannelTypes (take n ds) c) = i.
Proof.
  intros Hm Hc Hall.
  assert (Forall (carries_no_other_id i) (take n ds)) as Hpre
    by now apply Forall_take.
  split.
  - unfold Message.id in *. f_equal.
    apply Message_updates_keep_id; [exact Hpre | congruence].
  - now apply Channel_updates_keep_id.
Qed.

Lemma identity_stable_under_updates_witness :
  let ds := [VObj {[ "name" := VStr "renamed" ]};
             VUndef;
             VObj {[ "id" := VStr "10"; "name" := VStr "again" ]}] in
  Message.id (Message.updates (take 3 ds) (Message.mk {[ "id" := VStr "10" ]}))
    = Returned (VStr "10") /\
  id (Channel.updates (fun _ => Returned (VNum 0)) (fun _ => VUndef) (take 3 ds)
        (Channel.set_id (VStr "10") (Channel.blank None))) = VStr "10".
Proof.
  intros ds.
  apply (identity_stable_under_updates (fun _ => Returned (VNum 0))
           (fun _ => VUndef) (VStr "10")).
  - reflexivity.
  - reflexivity.
  - subst ds.
    constructor; [now left|].
    constructor; [now left|].
    constructor; [now right|].
    constructor.
Defined.

(** ** An undefined payload *)

(** C10.  Updating with an [undefined] payload is a total no-op: on a
    message and on a channel, [parseData(undefined)] returns normally and
    leaves every field of the entity as it was. *)
Theorem undefined_update_is_noop :
  (forall m : Message.t, Message.parseData VUndef m = (Returned tt, m)) /\
  (forall (deconstruct : JsVal -> Outcome JsVal)
          (RawChannelTypes : JsVal -> JsVal) (c : ChannelObj),
     Channel.parseData deconstruct RawChannelTypes VUndef c = (Returned VNull, c)).
Proof. split; reflexivity. Qed.

(** ** The channel re-upsert scenario *)

(** C2.  The scenario on the code: a channel built from
    [{id:"10", name:"general", type:0}] and then updated with
    [{id:"10", name:"general-renamed"}] reads name ["general-renamed"] and
    id ["10"], and keeps its guild and creation time; its [type], however,
    is not retained: [parseData] assigns [RawChannelTypes[undefined] ??
    'UNKNOWN'], so whatever type the first payload gave is replaced by
    ['UNKNOWN'] whenever the table has nothing under [undefined]. *)
Theorem channel_reupsert_resets_type
    (deconstruct : JsVal -> Outcome JsVal) (RawChannelTypes : JsVal -> JsVal)
    (ts : JsVal) (g : option loc) :
  deconstruct (VStr "10") = Returned ts ->
  nullish (RawChannelTypes VUndef) = true ->
  let first :=
    VObj {[ "id" := VStr "10"; "name" := VStr "general"; "type" := VNum 0 ]} in
  let second := VObj {[ "id" := VStr "10"; "name" := VStr "general-renamed" ]} in
  exists c1 : ChannelObj,
    Channel.construct deconstruct RawChannelTypes first g = Returned c1 /\
    type c1 = coalesce (RawChannelTypes (VNum 0)) (VStr "UNKNOWN") /\
    let r := Channel.parseData deconstruct RawChannelTypes second c1 in
    fst r = Returned VUndef /\
    id (snd r) = VStr "10" /\
    name (snd r) = VStr "general-renamed" /\
    guild (snd r) = guild c1 /\
    createdTimestamp (snd r) = createdTimestamp c1 /\
    createdAt (snd r) = createdAt c1 /\
    type (snd r) = VStr "UNKNOWN".
Proof.
  intros Hts Htbl first second.
  unfold Channel.construct. subst first.
  rewrite Channel_parseData_object.
  replace (default (id (Channel.blank g)) (_ !! "id")) with (VStr "10")
    by reflexivity.
  rewrite Hts. eexists. split; [reflexivity|]. split; [reflexivity|].
  subst second. rewrite Channel_parseData_object. cbn [id].
  replace (default (VStr "10") (_ !! "id")) with (VStr "10") by reflexivity.
  rewrite Hts. cbn [fst snd id name guild createdTimestamp createdAt type].
  repeat split.
  replace (default VUndef (_ !! "type")) with VUndef by reflexivity.
  unfold coalesce at 1. now rewrite Htbl.
Qed.

(** With a table that names raw type [0] ['GUILD_TEXT'], the channel is a
    text channel after the first payload and of unknown type after the
    second. *)
Lemma channel_reupsert_resets_type_witness :
  let table := fun v => match v with VNum 0 => VStr "GUILD_TEXT" | _ => VUndef end in
  let stamp := fun _ : JsVal => Returned (VNum 1420070400000) in
  exists c1 : ChannelObj,
    Channel.construct stamp table
      (VObj {[ "id" := VStr "10"; "name" := VStr "general"; "type" := VNum 0 ]})
      None = Returned c1 /\
    type c1 = VStr "GUILD_TEXT" /\
    type (snd (Channel.parseData stamp table
                 (VObj {[ "id" := VStr "10"; "name" := VStr "general-renamed" ]})
                 c1)) = VStr "UNKNOWN".
Proof.
  intros table stamp.
  destruct (channel_reupsert_resets_type stamp table (VNum 1420070400000) None)
    as (c1 & Hc1 & Hty & _ & _ & _ & _ & _ & _ & Hty2).
  - reflexivity.
  - reflexivity.
  - exists c1. split; [exact Hc1|]. split; [exact Hty | exact Hty2].
Defined.

(** ** Fields a message payload lacks *)

(** C5.  What the accessors read when their field is absent from the
    payload: [content] the empty string, [pinned] and [tts] [false],
    [components] the empty array.  [embeds] has no such default: it calls
    [map] on [undefined] and throws a [TypeError]. *)
Theorem absent_fields_read
    (messageComponents EmbedBuilder : JsVal -> Outcome JsVal) (m : Message.t) :
  (Message.data m !! "content" = None ->
     Message.content m = Returned (VStr "")) /\
  (Message.data m !! "pinned" = None ->
     Message.pinned m = Returned (VBool false)) /\
  (Message.data m !! "tts" = None ->
     Message.tts m = Returned (VBool false)) /\
  (Message.data m !! "components" = None ->
     Message.components messageComponents m = Returned (VArr [])) /\
  (Message.data m !! "embeds" = None ->
     Message.embeds EmbedBuilder m =
       Threw (TypeError "Cannot read properties of undefined (reading 'map')")).
Proof.
  unfold Message.content, Message.pinned, Message.tts, Message.components,
    Message.embeds, Message.get.
  repeat split; intros ->; reflexivity.
Qed.

Lemma absent_fields_read_witness :
  let m := Message.mk {[ "id" := VStr "1"; "channel_id" := VStr "10" ]} in
  Message.content m = Returned (VStr "") /\
  Message.components Returned m = Returned (VArr []) /\
  Message.embeds Returned m =
    Threw (TypeError "Cannot read properties of undefined (reading 'map')").
Proof.
  intros m.
  destruct (absent_fields_read Returned Returned m) as (Hc & _ & _ & Hk & He).
  split; [now apply Hc|]. split; [now apply Hk | now apply He].
Defined.

(** ** Constructing entities *)

Lemma Channel_new_caches deconstruct RawChannelTypes
    (d : JsVal) (g : option loc) (c : Client) :
  let c' := snd (Channel.new deconstruct RawChannelTypes d g c) in
  users c' = users c /\ channels c' = channels c /\ guilds c' = guilds c /\
  userObjs c' = userObjs c /\ guildObjs c' = guildObjs c /\
  requests c' = requests c.
Proof.
  unfold Channel.new, bind, lift, gets, modify, ret.
  destruct (Channel.construct _ _ d g); simpl; repeat split.
Qed.

(** C7, as stated, fails: no construction raises [MalformedPayload].  A
    message built from a payload without [id] is built all the same, and
    its [id] reads [undefined]. *)
Lemma construct_without_id_succeeds :
  let payload : gmap string JsVal := {[ "content" := VStr "hi" ]} in
  let client := mkClient (mkCache [] 0) (mkCache [] 0) (mkCache [] 0) ∅ ∅ ∅ [] in
  payload !! "id" = None /\
  Message.constructor payload client = (Returned (Message.mk payload), client) /\
  Message.id (Message.mk payload) = Returned VUndef /\
  (forall msg : string,
     fst (Message.constructor payload client)
       <> Threw (UserManager.MalformedPayload msg)).
Proof. repeat split. intros msg. discriminate. Qed.

Lemma Channel_construct_error deconstruct RawChannelTypes
    (payload : JsVal) (g : option loc) (e : JsError) :
  Channel.construct deconstruct RawChannelTypes payload g = Threw e ->
  (exists msg : string, e = TypeError msg) \/
  (exists v : JsVal, deconstruct v = Threw e).
Proof.
  unfold Channel.construct.
  destruct payload as [| |b|n|s|l|o].
  - rewrite Channel_parseData_undefined. discriminate.
  - intros [= <-]. left. eexists. reflexivity.
  - intros [= <-]. left. eexists. reflexivity.
  - intros [= <-]. left. eexists. reflexivity.
  - intros [= <-]. left. eexists. reflexivity.
  - rewrite Channel_parseData_array.
    destruct (deconstruct _) as [ts|e'] eqn:Hd; [discriminate|].
    intros [= <-]. right. eexists. exact Hd.
  - rewrite Channel_parseData_object. simpl.
    destruct (deconstruct _) as [ts|e'] eqn:Hd; [discriminate|].
    intros [= <-]. right. eexists. exact Hd.
Qed.

(** C7, amended.  No construction raises [MalformedPayload] of its own.
    Constructing a message from any payload object, whichever fields it
    lacks, succeeds and stores the payload as given, a lacking field
    reading [undefined].  Constructing a channel from an object payload
    succeeds or fails exactly as [Snowflake.deconstruct] does on the
    payload's id ([undefined] when lacking), with that call's error; a
    lacking id or name reads [undefined] and the type is the table's entry
    for the payload's type, ['UNKNOWN'] when there is none.  On any payload
    the only error the channel constructor raises itself is the [TypeError]
    of the [in] test, every other one being thrown by
    [Snowflake.deconstruct]; so it raises [MalformedPayload] only if
    [Snowflake.deconstruct] does.  Neither construction changes a manager's
    cache. *)
Theorem construct_lacking_required_field
    (deconstruct : JsVal -> Outcome JsVal) (RawChannelTypes : JsVal -> JsVal)
    (d : gmap string JsVal) (g : option loc) (c : Client) :
  Message.constructor d c = (Returned (Message.mk d), c) /\
  (forall k : string, d !! k = None -> Message.get (Message.mk d) k = VUndef) /\
  Channel.construct deconstruct RawChannelTypes (VObj d) g =
    match deconstruct (default VUndef (d !! "id")) with
    | Threw e => Threw e
    | Returned ts =>
        Returned (mkChannel ts (Some (mkDate ts)) (default VUndef (d !! "id"))
                    (default VUndef (d !! "name")) g
                    (coalesce (RawChannelTypes (default VUndef (d !! "type")))
                       (VStr "UNKNOWN")))
    end /\
  (forall (payload : JsVal) (e : JsError),
     Channel.construct deconstruct RawChannelTypes payload g = Threw e ->
     (exists msg : string, e = TypeError msg) \/
     (exists v : JsVal, deconstruct v = Threw e)) /\
  (forall (payload : JsVal) (msg : string),
     (forall (v : JsVal) (msg' : string),
        deconstruct v <> Threw (UserManager.MalformedPayload msg')) ->
     Channel.construct deconstruct RawChannelTypes payload g
       <> Threw (UserManager.MalformedPayload msg)) /\
  (forall payload : JsVal,
     let c' := snd (Channel.new deconstruct RawChannelTypes payload g c) in
     users c' = users c /\ channels c' = channels c /\ guilds c' = guilds c).
Proof.
  split; [reflexivity|]. split.
  { intros k Hk. unfold Message.get. simpl. now rewrite Hk. }
  split.
  { unfold Channel.construct. rewrite Channel_parseData_object. simpl.
    destruct (deconstruct _); reflexivity. }
  split.
  { intros payload e. apply Channel_construct_error. }
  split.
  { intros payload msg Hdec Hthrow.
    apply Channel_construct_error in Hthrow as [[msg' Hty] | [v Hv]].
    - discriminate Hty.
    - exact (Hdec v msg Hv). }
  intros payload.
  pose proof (Channel_new_caches deconstruct RawChannelTypes payload g c)
    as (Hu & Hc & Hg & _).
  simpl. auto.
Qed.

Lemma construct_lacking_required_field_witness :
  let d : gmap string JsVal := {[ "name" := VStr "general" ]} in
  let c := mkClient (mkCache [] 0) (mkCache [] 0) (mkCache [] 0) ∅ ∅ ∅ [] in
  let strict := fun _ : JsVal =>
    @Threw JsVal (TypeError "Cannot convert undefined to a BigInt") in
  Message.constructor d c = (Returned (Message.mk d), c) /\
  Message.get (Message.mk d) "id" = VUndef /\
  Channel.construct strict (fun _ => VUndef) (VObj d) None
    = Threw (TypeError "Cannot convert undefined to a BigInt") /\
  Channel.construct strict (fun _ => VUndef) (VObj d) None
    <> Threw (UserManager.MalformedPayload "payload has no identity field").
Proof.
  intros d c strict.
  destruct (construct_lacking_required_field strict (fun _ => VUndef) d None c)
    as (Hm & Hget & Hc & _ & Hnever & _).
  split; [exact Hm|]. split; [apply Hget; reflexivity|]. split; [exact Hc|].
  apply Hnever. intros v msg'. discriminate.
Defined.

(** ** Remote rejections *)

Lemma string_app_assoc (a b c : string) : (a +:+ b) +:+ c = a +:+ (b +:+ c).
Proof.
  induction a as [|x a IH]; [reflexivity|].
  change (String x ((a +:+ b) +:+ c) = String x (a +:+ (b +:+ c))).
  now rewrite IH.
Qed.

Lemma string_app_nil_r (a : string) : a +:+ "" = a.
Proof.
  induction a as [|x a IH]; [reflexivity|].
  change (String x (a +:+ "") = String x a). now rewrite IH.
Qed.

Lemma diagnostics_contains (head endpoint method rendered : string) :
  contains endpoint (head +:+ diagnostics endpoint method rendered) /\
  contains method (head +:+ diagnostics endpoint method rendered) /\
  contains rendered (head +:+ diagnostics endpoint method rendered).
Proof.
  unfold contains, diagnostics. repeat split.
  - exists (head +:+ new_line +:+ "Endpoint: "),
      (new_line +:+ "Method: " +:+ method +:+ new_line +:+ "Data: " +:+ rendered).
    now rewrite !string_app_assoc.
  - exists (head +:+ new_line +:+ "Endpoint: " +:+ endpoint +:+ new_line
            +:+ "Method: "),
      (new_line +:+ "Data: " +:+ rendered).
    now rewrite !string_app_assoc.
  - exists (head +:+ new_line +:+ "Endpoint: " +:+ endpoint +:+ new_line
            +:+ "Method: " +:+ method +:+ new_line +:+ "Data: "), "".
    now rewrite !string_app_assoc, string_app_nil_r.
Qed.

Lemma verifyForStatusCode_raises (endpoint : string) (data : Body) (code : Z)
    (method : string) :
  raises (verifyForStatusCode endpoint data code method) <-> status_rejected code.
Proof.
  unfold verifyForStatusCode, status_rejected, raises.
  destruct (Z.eqb_spec code 400); [split; eauto|].
  destruct (Z.eqb_spec code 401); [split; eauto|].
  destruct (Z.eqb_spec code 403); [split; eauto|].
  destruct (Z.eqb_spec code 404); [split; eauto|].
  split.
  - intros [e He]. discriminate.
  - intros H. exfalso. lia.
Qed.

Lemma verifyForStatusCode_message (endpoint : string) (data : Body) (code : Z)
    (method : string) (e : JsError) :
  verifyForStatusCode endpoint data code method = Threw e ->
  err_name e = "Error" /\
  exists head : string,
    err_message e = head +:+ diagnostics endpoint method (body_or_empty data).
Proof.
  unfold verifyForStatusCode.
  repeat (destruct (_ =? _));
    intros [= <-]; (split; [reflexivity | eexists; reflexivity]).
Qed.

(** The JSON check on an object response, in one equation. *)
Lemma verifyForJSONStatusCode_object (o : gmap string JsVal)
    (endpoint : string) (data : Body) (method : string) :
  verifyForJSONStatusCode (VObj o) endpoint data method =
    if truthy (default VUndef (o !! "code"))
       && truthy (default VUndef (o !! "message"))
    then Threw (Error ("DiscordAPIError: "
                       +:+ toString (default VUndef (o !! "message")) +:+ " ("
                       +:+ toString (default VUndef (o !! "code")) +:+ ")"
                       +:+ diagnostics endpoint method (body_json_or_empty data)))
    else Returned tt.
Proof.
  unfold verifyForJSONStatusCode. simpl.
  destruct (truthy (default VUndef (o !! "code"))) eqn:Hc; simpl.
  - destruct (truthy (default VUndef (o !! "message"))); reflexivity.
  - now rewrite Hc.
Qed.

(** C6, as stated, fails: a structured response that carries a code and a
    message raises nothing when the code is [0] (or the message empty),
    since the check is on their truthiness.  The remote's general error
    [{code: 0, message: "401: Unauthorized"}] passes both checks under a
    status of [200]. *)
Lemma remote_code_zero_not_rejected :
  let j := VObj {[ "code" := VNum 0; "message" := VStr "401: Unauthorized" ]} in
  carries_code_and_message j /\
  verifyForStatusCode "channels/10" (BodyString "") 200 "DELETE" = Returned tt /\
  verifyForJSONStatusCode j "channels/10" (BodyString "") "DELETE" = Returned tt /\
  ~ raises (verifyForStatusCode "channels/10" (BodyString "") 200 "DELETE") /\
  ~ raises (verifyForJSONStatusCode j "channels/10" (BodyString "") "DELETE").
Proof.
  intros j. split.
  - eexists. split; [reflexivity|]. split; eexists; reflexivity.
  - repeat split; intros [e He]; discriminate.
Qed.

(** C6, amended.  [verifyForStatusCode] raises exactly when the status is
    400, 401, 403 or 404; [verifyForJSONStatusCode], on an object response,
    raises exactly when the response's code and message are both truthy.
    Every error so raised is an [Error] whose message ends with the
    endpoint, the method and the request body as rendered ([empty] for a
    missing body, the string itself for a string body), and so contains
    the three. *)
Theorem remote_rejection_mapping
    (endpoint : string) (data : Body) (method : string) (code : Z)
    (o : gmap string JsVal) :
  (raises (verifyForStatusCode endpoint data code method)
     <-> status_rejected code) /\
  (raises (verifyForJSONStatusCode (VObj o) endpoint data method)
     <-> truthy (default VUndef (o !! "code")) = true /\
         truthy (default VUndef (o !! "message")) = true) /\
  (forall e : JsError,
     verifyForStatusCode endpoint data code method = Threw e ->
     err_name e = "Error" /\
     (exists head : string,
        err_message e
          = head +:+ diagnostics endpoint method (body_or_empty data)) /\
     contains endpoint (err_message e) /\
     contains method (err_message e) /\
     contains (body_or_empty data) (err_message e)) /\
  (forall e : JsError,
     verifyForJSONStatusCode (VObj o) endpoint data method = Threw e ->
     err_name e = "Error" /\
     (exists head : string,
        err_message e
          = head +:+ diagnostics endpoint method (body_json_or_empty data)) /\
     contains endpoint (err_message e) /\
     contains method (err_message e) /\
     contains (body_json_or_empty data) (err_message e)) /\
  (forall s : string,
     body_or_empty (BodyString s) = s /\ body_json_or_empty (BodyString s) = s).
Proof.
  split; [apply verifyForStatusCode_raises|].
  split.
  { rewrite verifyForJSONStatusCode_object. unfold raises.
    destruct (truthy (default VUndef (o !! "code"))),
             (truthy (default VUndef (o !! "message"))); simpl;
      split; try (intros [e He]; discriminate); try (intros [? ?]; discriminate);
      eauto. }
  split.
  { intros e He. apply verifyForStatusCode_message in He as (Hn & head & Hm).
    split; [exact Hn|]. split; [now exists head|].
    rewrite Hm. apply diagnostics_contains. }
  split.
  { intros e. rewrite verifyForJSONStatusCode_object.
    destruct (_ && _); [|discriminate]. intros [= <-].
    split; [reflexivity|].
    set (head := "DiscordAPIError: " +:+ toString (default VUndef (o !! "message"))
                 +:+ " (" +:+ toString (default VUndef (o !! "code")) +:+ ")").
    assert (err_message
              (Error ("DiscordAPIError: "
                      +:+ toString (default VUndef (o !! "message")) +:+ " ("
                      +:+ toString (default VUndef (o !! "code")) +:+ ")"
                      +:+ diagnostics endpoint method (body_json_or_empty data)))
            = head +:+ diagnostics endpoint method (body_json_or_empty data)) as ->.
    { subst head. simpl. now rewrite !string_app_assoc. }
    split; [now exists head|]. apply diagnostics_contains. }
  intros s. split; reflexivity.
Qed.

Lemma remote_rejection_mapping_witness :
  let o : gmap string JsVal :=
    {[ "code" := VNum 50001; "message" := VStr "Missing Access" ]} in
  raises (verifyForStatusCode "channels/10" (BodyString "{}") 403 "DELETE") /\
  raises (verifyForJSONStatusCode (VObj o) "channels/10" (BodyString "{}") "DELETE").
Proof.
  intros o.
  destruct (remote_rejection_mapping "channels/10" (BodyString "{}") "DELETE" 403 o)
    as (Hs & Hj & _).
  split.
  - apply Hs. right. right. left. reflexivity.
  - apply Hj. split; reflexivity.
Defined.

(** ** Cross-reference accessors *)

Lemma reads_only_ret {A} (a : A) : reads_only (ret a).
Proof. intros c. reflexivity. Qed.

Lemma reads_only_lift {A} (o : Outcome A) : reads_only (lift o).
Proof. intros c. reflexivity. Qed.

Lemma reads_only_gets {A} (f : Client -> A) : reads_only (gets f).
Proof. intros c. reflexivity. Qed.

Lemma reads_only_deref {A} (heap : Client -> gmap loc A) (l : loc) :
  reads_only (deref heap l).
Proof. intros c. unfold deref. destruct (heap c !! l); reflexivity. Qed.

Lemma reads_only_bind {A B} (m : M Client A) (k : A -> M Client B) :
  reads_only m -> (forall a, reads_only (k a)) -> reads_only (bind m k).
Proof.
  intros Hm Hk c. unfold bind. specialize (Hm c).
  destruct (m c) as [[a|e] c']; simpl in *; subst c'; [apply Hk | reflexivity].
Qed.

Create HintDb reads discriminated.
#[local] Hint Resolve reads_only_ret reads_only_lift reads_only_gets
  reads_only_deref reads_only_bind : reads.

Lemma reads_only_channel (m : Message.t) : reads_only (Message.channel m).
Proof. unfold Message.channel. destruct (truthy _); auto with reads. Qed.

Lemma reads_only_channel_guild (m : Message.t) :
  reads_only (Message.channel_guild m).
Proof.
  unfold Message.channel_guild.
  apply reads_only_bind; [apply reads_only_channel|].
  intros [l|]; auto with reads.
Qed.

Lemma reads_only_guildId (m : Message.t) : reads_only (Message.guildId m).
Proof.
  unfold Message.guildId. destruct (nullish _); [|auto with reads].
  apply reads_only_bind; [apply reads_only_channel_guild|].
  intros [l|]; auto with reads.
Qed.

Lemma reads_only_guild (m : Message.t) : reads_only (Message.guild m).
Proof.
  unfold Message.guild.
  apply reads_only_bind; [apply reads_only_guildId|]. intros test.
  destruct (truthy test); [|auto with reads].
  apply reads_only_bind; [apply reads_only_guildId|]. intros key.
  apply reads_only_bind; [auto with reads|].
  intros [l|]; [auto with reads | apply reads_only_channel_guild].
Qed.

(** C3, as stated, fails for the author accessor: when the author is not
    cached it calls [users.updateOrSet], which stores a new entry.  Reading
    the author of a message by user ["7"] from a client with an empty users
    cache leaves user ["7"] cached. *)
Lemma author_accessor_fills_cache :
  let m := Message.mk {[ "id" := VStr "1"; "channel_id" := VStr "10";
                         "author" := VObj {[ "id" := VStr "7" ]} ]} in
  let c := mkClient (mkCache [] 0) (mkCache [] 0) (mkCache [] 0) ∅ ∅ ∅ [] in
  let r := Message.author UserManager.updateOrSet m c in
  cache_get (users c) (VStr "7") = None /\
  fst r = Returned 1%positive /\
  cache_get (users (snd r)) (VStr "7") = Some 1%positive /\
  userObjs (snd r) !! 1%positive = Some (mkUser (VObj {[ "id" := VStr "7" ]})) /\
  ~ reads_only (Message.author UserManager.updateOrSet m).
Proof.
  intros m c r. repeat split.
  intros H. specialize (H c). apply (f_equal users) in H. discriminate H.
Qed.

(** C3, amended.  The channel, guild and guild-id accessors are pure reads:
    whatever they return, the client (every manager's cache, every object,
    the requests made) is as before.  The author accessor is a pure read
    when reading the author's id throws or the author is cached; when the
    author is not cached its result and effect are those of
    [users.updateOrSet(author.id, author)]. *)
Theorem accessors_read_only
    (updateOrSet : JsVal -> JsVal -> M Client loc) (m : Message.t) (c : Client) :
  snd (Message.channel m c) = c /\
  snd (Message.guildId m c) = c /\
  snd (Message.guild m c) = c /\
  (forall e : JsError,
     getProp (Message.get m "author") "id" = Threw e ->
     Message.author updateOrSet m c = (Threw e, c)) /\
  (forall (key : JsVal) (l : loc),
     getProp (Message.get m "author") "id" = Returned key ->
     cache_get (users c) key = Some l ->
     Message.author updateOrSet m c = (Returned l, c)) /\
  (forall key : JsVal,
     getProp (Message.get m "author") "id" = Returned key ->
     cache_get (users c) key = None ->
     Message.author updateOrSet m c = updateOrSet key (Message.get m "author") c).
Proof.
  split; [apply reads_only_channel|].
  split; [apply reads_only_guildId|].
  split; [apply reads_only_guild|].
  unfold Message.author, bind, lift, gets, ret.
  repeat split.
  - intros e ->. reflexivity.
  - intros key l -> ->. reflexivity.
  - intros key -> ->. reflexivity.
Qed.

Lemma accessors_read_only_witness :
  let m := Message.mk {[ "channel_id" := VStr "10";
                         "author" := VObj {[ "id" := VStr "7" ]} ]} in
  let c := mkClient (mkCache [("7", 3%positive)] 0) (mkCache [] 0) (mkCache [] 0)
             {[ 3%positive := mkUser (VObj {[ "id" := VStr "7" ]}) ]} ∅ ∅ [] in
  snd (Message.guild m c) = c /\
  Message.author UserManager.updateOrSet m c = (Returned 3%positive, c).
Proof.
  intros m c.
  destruct (accessors_read_only UserManager.updateOrSet m c)
    as (_ & _ & Hg & _ & Hhit & _).
  split; [exact Hg|].
  apply (Hhit (VStr "7")); reflexivity.
Defined.

(** ** Resolving a channel that is not cached *)

Lemma channel_uncached (m : Message.t) (c : Client) :
  cache_get (channels c) (Message.channelId m) = None ->
  Message.channel m c = (Returned None, c).
Proof.
  intros H. unfold Message.channel.
  destruct (truthy _); [|reflexivity].
  unfold gets. now rewrite H.
Qed.

Lemma channel_guild_uncached (m : Message.t) (c : Client) :
  cache_get (channels c) (Message.channelId m) = None ->
  Message.channel_guild m c = (Returned None, c).
Proof.
  intros H. unfold Message.channel_guild, bind.
  now rewrite channel_uncached.
Qed.

Lemma guildId_uncached (m : Message.t) (c : Client) :
  cache_get (channels c) (Message.channelId m) = None ->
  Message.guildId m c =
    (Returned (if nullish (Message.get m "guild_id") then VUndef
               else Message.get m "guild_id"), c).
Proof.
  intros H. unfold Message.guildId.
  destruct (nullish _); [|reflexivity].
  unfold bind. now rewrite channel_guild_uncached.
Qed.

Lemma nullish_not_truthy (v : JsVal) : nullish v = true -> truthy v = false.
Proof. destruct v; simpl; congruence. Qed.

Lemma guild_uncached (m : Message.t) (c : Client) :
  cache_get (channels c) (Message.channelId m) = None ->
  Message.guild m c =
    (Returned (if truthy (Message.get m "guild_id")
               then cache_get (guilds c) (Message.get m "guild_id")
               else None), c).
Proof.
  intros H. unfold Message.guild, bind. rewrite guildId_uncached by exact H.
  destruct (nullish (Message.get m "guild_id")) eqn:Hn.
  - rewrite (nullish_not_truthy _ Hn). reflexivity.
  - destruct (truthy (Message.get m "guild_id")); [|reflexivity].
    rewrite guildId_uncached by exact H. rewrite Hn. unfold gets.
    destruct (cache_get (guilds c) _); [reflexivity|].
    now rewrite channel_guild_uncached.
Qed.

(** C4, as stated, fails for the guild accessor: it looks the message's own
    guild id up in the guilds cache before falling back through the
    channel, so with an uncached channel it still returns the guild when
    that one is cached. *)
Lemma guild_resolved_without_channel :
  let m := Message.mk {[ "id" := VStr "1"; "channel_id" := VStr "10";
                         "guild_id" := VStr "5" ]} in
  let c := mkClient (mkCache [] 0) (mkCache [] 0) (mkCache [("5", 1%positive)] 0)
             ∅ ∅ {[ 1%positive := mkGuild (VStr "5") ]} [] in
  cache_get (channels c) (Message.channelId m) = None /\
  fst (Message.channel m c) = Returned None /\
  fst (Message.guild m c) = Returned (Some 1%positive) /\
  fst (Message.guild m c) <> Returned None.
Proof. repeat split. discriminate. Qed.

(** C4, amended.  For a message whose channel id is not in the channels
    cache, the channel accessor returns absent, and the guild accessor
    returns without throwing: the guild cached under the message's own
    guild id when that id is truthy and cached, absent otherwise (its
    fallback through the channel yields absent).  Neither changes the
    client. *)
Theorem uncached_channel_resolves_absent (m : Message.t) (c : Client) :
  cache_get (channels c) (Message.channelId m) = None ->
  Message.channel m c = (Returned None, c) /\
  Message.guild m c =
    (Returned (if truthy (Message.get m "guild_id")
               then cache_get (guilds c) (Message.get m "guild_id")
               else None), c) /\
  (cache_get (guilds c) (Message.get m "guild_id") = None ->
   Message.guild m c = (Returned None, c)).
Proof.
  intros H. split; [now apply channel_uncached|].
  split; [now apply guild_uncached|].
  intros Hg. rewrite guild_uncached by exact H. rewrite Hg.
  now destruct (truthy _).
Qed.

Lemma uncached_channel_resolves_absent_witness :
  let m := Message.mk {[ "id" := VStr "1"; "channel_id" := VStr "10" ]} in
  let c := mkClient (mkCache [] 0) (mkCache [("11", 1%positive)] 0)
             (mkCache [("5", 1%positive)] 0)
             ∅ {[ 1%positive := Channel.blank (Some 1%positive) ]}
             {[ 1%positive := mkGuild (VStr "5") ]} [] in
  Message.channel m c = (Returned None, c) /\
  Message.guild m c = (Returned None, c).
Proof.
  intros m c.
  destruct (uncached_channel_resolves_absent m c) as (Hc & _ & Hg).
  - reflexivity.
  - split; [exact Hc | apply Hg; reflexivity].
Defined.

(** ** Deleting a channel *)

Lemma Channel_delete_caches deconstruct RawChannelTypes
    (response : Outcome JsVal) (this : loc) (reason : JsVal) (c : Client) :
  let c' := snd (Channel.delete deconstruct RawChannelTypes response this reason c) in
  users c' = users c /\ channels c' = channels c /\ guilds c' = guilds c.
Proof.
  unfold Channel.delete, Channel.requester_make, Channel.new, deref, bind, lift,
    modify, gets, ret. simpl.
  destruct (channelObjs c !! this) as [o|] eqn:Hthis; simpl; [|auto].
  destruct response as [data|e]; simpl; [|auto].
  rewrite Hthis. simpl.
  destruct (Channel.construct deconstruct RawChannelTypes data (guild o));
    simpl; auto.
Qed.

(** C9, as stated, fails: [Channel.delete] does not go through the
    channels manager.  Deleting the cached channel ["10"] returns a new
    object built from the response; the cache still holds the old object
    under ["10"], unchanged, and the returned one is in no cache. *)
Lemma delete_returns_detached_channel :
  let stamp := fun _ : JsVal => Returned (VNum 1420070400000) in
  let table := fun v => match v with VNum 0 => VStr "GUILD_TEXT" | _ => VUndef end in
  let cached := mkChannel (VNum 1420070400000) (Some (mkDate (VNum 1420070400000)))
                  (VStr "10") (VStr "general") None (VStr "GUILD_TEXT") in
  let c := mkClient (mkCache [] 0) (mkCache [("10", 1%positive)] 0) (mkCache [] 0)
             ∅ {[ 1%positive := cached ]} ∅ [] in
  let response :=
    Returned (VObj {[ "id" := VStr "10"; "name" := VStr "general"; "type" := VNum 0 ]}) in
  let r := Channel.delete stamp table response 1%positive VUndef c in
  fst r = Returned 2%positive /\
  id <$> (channelObjs (snd r) !! 2%positive) = Some (VStr "10") /\
  cache_get (channels (snd r)) (VStr "10") = Some 1%positive /\
  channels (snd r) = channels c /\
  channelObjs (snd r) !! 1%positive = Some cached /\
  requests (snd r) = [mkRequest "channels/10" "DELETE" "" VUndef].
Proof. vm_compute. repeat split. Qed.

(** C9, amended.  [Channel.delete] on a channel [this] sends one [DELETE]
    request to [channels/<id>] and, when the remote answers with a payload
    from which a channel can be built, returns a newly constructed channel
    with the same guild: an object that did not exist before, distinct
    from [this] and from every object a cache refers to.  Whatever the
    remote answers, no manager's cache changes. *)
Theorem delete_constructs_new_channel
    (deconstruct : JsVal -> Outcome JsVal) (RawChannelTypes : JsVal -> JsVal)
    (this : loc) (reason data : JsVal) (c : Client) (o o' : ChannelObj) :
  channelObjs c !! this = Some o ->
  Channel.construct deconstruct RawChannelTypes data (guild o) = Returned o' ->
  let l := fresh (dom (channelObjs c)) in
  Channel.delete deconstruct RawChannelTypes (Returned data) this reason c =
    (Returned l,
     mkClient (users c) (channels c) (guilds c) (userObjs c)
       (<[l := o']> (channelObjs c)) (guildObjs c)
       (requests c ++ [mkRequest ("channels/" +:+ toString (id o)) "DELETE" ""
                         reason])%list) /\
  channelObjs c !! l = None /\
  l <> this /\
  (forall (key : JsVal) (l0 : loc),
     cache_get (channels c) key = Some l0 ->
     is_Some (channelObjs c !! l0) ->
     l0 <> l) /\
  (forall response : Outcome JsVal,
     let c' := snd (Channel.delete deconstruct RawChannelTypes response this
                      reason c) in
     users c' = users c /\ channels c' = channels c /\ guilds c' = guilds c).
Proof.
  intros Hthis Hnew l.
  assert (channelObjs c !! l = None) as Hfresh.
  { apply not_elem_of_dom. apply is_fresh. }
  split.
  - unfold Channel.delete, Channel.requester_make, Channel.new, deref, bind,
      lift, modify, gets, ret. simpl.
    rewrite Hthis. simpl. rewrite Hthis. simpl. rewrite Hnew. reflexivity.
  - split; [exact Hfresh|]. split; [|split].
    + intros ->. rewrite Hthis in Hfresh. discriminate.
    + intros key l0 _ [x Hx] ->. rewrite Hx in Hfresh. discriminate.
    + intros response. apply Channel_delete_caches.
Qed.

Lemma delete_constructs_new_channel_witness :
  let stamp := fun _ : JsVal => Returned (VNum 1420070400000) in
  let table := fun _ : JsVal => VUndef in
  let c := mkClient (mkCache [] 0) (mkCache [("10", 1%positive)] 0) (mkCache [] 0)
             ∅ {[ 1%positive := Channel.set_id (VStr "10") (Channel.blank None) ]}
             ∅ [] in
  fst (Channel.delete stamp table (Returned (VObj {[ "id" := VStr "10" ]}))
         1%positive (VStr "cleanup") c)
    = Returned (fresh (dom (channelObjs c))) /\
  channels (snd (Channel.delete stamp table (Returned (VObj {[ "id" := VStr "10" ]}))
                   1%positive (VStr "cleanup") c)) = channels c.
Proof.
  intros stamp table c.
  destruct (delete_constructs_new_channel stamp table 1%positive (VStr "cleanup")
              (VObj {[ "id" := VStr "10" ]}) c
              (Channel.set_id (VStr "10") (Channel.blank None))
              (mkChannel (VNum 1420070400000) (Some (mkDate (VNum 1420070400000)))
                 (VStr "10") VUndef None (VStr "UNKNOWN")))
    as (Hrun & _).
  - reflexivity.
  - reflexivity.
  - rewrite Hrun. split; reflexivity.
Defined.

(** * Further properties of the code *)

(** ** Message updates as a whole *)

Lemma ownProps_falsy (d : JsVal) : truthy d = false -> ownProps d = ∅.
Proof.
  destruct d as [| |b|n|s|l|o]; simpl; try reflexivity; try discriminate.
  intros H. apply negb_false_iff, String.eqb_eq in H. now subst s.
Qed.

(** Every call stores the payload's own properties over the old ones. *)
Lemma Message_parseData_state (d : JsVal) (m : Message.t) :
  Message.parseData d m = (Returned tt, Message.mk (ownProps d ∪ Message.data m)).
Proof.
  destruct (truthy d) eqn:Ht.
  - now apply Message_parseData_truthy.
  - rewrite Message_parseData_falsy by exact Ht.
    rewrite (ownProps_falsy d Ht), (left_id_L ∅ (∪)). now destruct m.
Qed.

(** X1.  Two updates in a row amount to one update with the two payloads
    merged, the later payload winning where both have a field. *)
Theorem message_updates_compose (d1 d2 : JsVal) (m : Message.t) :
  Message.updates [d1; d2] m =
    snd (Message.parseData (VObj (ownProps d2 ∪ ownProps d1)) m) /\
  (forall k : string,
     Message.data (Message.updates [d1; d2] m) !! k =
       match ownProps d2 !! k with
       | Some v => Some v
       | None => match ownProps d1 !! k with
                 | Some v => Some v
                 | None => Message.data m !! k
                 end
       end).
Proof.
  assert (Message.updates [d1; d2] m
          = Message.mk (ownProps d2 ∪ (ownProps d1 ∪ Message.data m))) as Hrun.
  { unfold Message.updates. simpl. now rewrite !Message_parseData_state. }
  split.
  - rewrite Hrun, Message_parseData_state. simpl. now rewrite (assoc_L (∪)).
  - intros k. rewrite Hrun. simpl. rewrite !lookup_union.
    destruct (ownProps d2 !! k), (ownProps d1 !! k), (Message.data m !! k);
      reflexivity.
Qed.

(** X2.  Applying the same payload a second time changes nothing. *)
Theorem message_update_idempotent (d : JsVal) (m : Message.t) :
  Message.parseData d (snd (Message.parseData d m)) = Message.parseData d m.
Proof.
  rewrite !Message_parseData_state. simpl.
  now rewrite (assoc_L (∪)), (idemp_L (∪)).
Qed.

(** X3.  An update never removes a field: the fields afterwards are those
    of the payload together with those the message had. *)
Theorem message_update_keeps_fields (d : JsVal) (m : Message.t) :
  dom (Message.data (snd (Message.parseData d m)))
    = dom (ownProps d) ∪ dom (Message.data m) /\
  (forall k : string,
     is_Some (Message.data m !! k) ->
     is_Some (Message.data (snd (Message.parseData d m)) !! k)).
Proof.
  rewrite Message_parseData_state. simpl. split.
  - apply dom_union_L.
  - intros k Hk. apply elem_of_dom. rewrite dom_union_L.
    apply elem_of_union_r. now apply elem_of_dom.
Qed.

Lemma message_update_keeps_fields_witness :
  let m := Message.mk {[ "id" := VStr "1"; "pinned" := VBool true ]} in
  is_Some (Message.data
             (snd (Message.parseData (VObj {[ "content" := VStr "hi" ]}) m))
           !! "pinned").
Proof.
  intros m.
  apply (message_update_keeps_fields (VObj {[ "content" := VStr "hi" ]}) m).
  eexists. reflexivity.
Defined.

(** X4.  A payload that is [null], a boolean, a number or the empty string
    is accepted and leaves the message as it was. *)
Theorem message_update_ignores_primitives (m : Message.t) :
  Message.parseData VNull m = (Returned tt, m) /\
  (forall b : bool, Message.parseData (VBool b) m = (Returned tt, m)) /\
  (forall n : Z, Message.parseData (VNum n) m = (Returned tt, m)) /\
  Message.parseData (VStr "") m = (Returned tt, m).
Proof.
  repeat split; intros; rewrite Message_parseData_state; simpl;
    rewrite ?(left_id_L ∅ (∪)); now destruct m.
Qed.

(** ** What the message accessors read *)

(** X5.  Whatever the payload holds, [content] reads a truthy value or the
    empty string, and [pinned] and [tts] never read [undefined] or [null]. *)
Theorem message_accessors_never_nullish (m : Message.t) :
  (exists v : JsVal,
     Message.content m = Returned v /\ (truthy v = true \/ v = VStr "")) /\
  (exists v : JsVal, Message.pinned m = Returned v /\ nullish v = false) /\
  (exists v : JsVal, Message.tts m = Returned v /\ nullish v = false).
Proof.
  unfold Message.content, Message.pinned, Message.tts, or_else, coalesce.
  repeat split.
  - eexists. split; [reflexivity|].
    destruct (truthy (Message.get m "content")) eqn:H; auto.
  - eexists. split; [reflexivity|].
    destruct (nullish (Message.get m "pinned")) eqn:H; auto.
  - eexists. split; [reflexivity|].
    destruct (nullish (Message.get m "tts")) eqn:H; auto.
Qed.

Lemma mapOutcome_total {A B} (f : A -> Outcome B) (g : A -> B) (l : list A) :
  (forall x, x ∈ l -> f x = Returned (g x)) ->
  mapOutcome f l = Returned (g <$> l).
Proof.
  induction l as [|x l IH]; intros H; [reflexivity|].
  simpl. rewrite (H x) by apply list_elem_of_here. simpl.
  rewrite IH; [reflexivity|].
  intros y Hy. apply H. now apply list_elem_of_further.
Qed.

Lemma mapOutcome_throws {A B} (f : A -> Outcome B) (g : A -> B)
    (l1 l2 : list A) (x : A) (e : JsError) :
  (forall y, y ∈ l1 -> f y = Returned (g y)) ->
  f x = Threw e ->
  mapOutcome f (l1 ++ x :: l2)%list = Threw e.
Proof.
  induction l1 as [|y l1 IH]; intros H Hx; simpl.
  - now rewrite Hx.
  - rewrite (H y) by apply list_elem_of_here. simpl.
    rewrite IH; [reflexivity| |exact Hx].
    intros z Hz. apply H. now apply list_elem_of_further.
Qed.

(** X6.  On a payload whose [embeds] ([components]) is an array, the
    accessor returns one built value per element, in order, when the
    builder returns for each; when the builder throws on an element (and
    returned for those before it) the accessor throws that error. *)
Theorem message_sequences_map_elementwise
    (build : JsVal -> Outcome JsVal) (g : JsVal -> JsVal)
    (m : Message.t) (l : list JsVal) :
  (Message.data m !! "embeds" = Some (VArr l) ->
   (forall x, x ∈ l -> build x = Returned (g x)) ->
   Message.embeds build m = Returned (VArr (g <$> l))) /\
  (Message.data m !! "components" = Some (VArr l) ->
   (forall x, x ∈ l -> build x = Returned (g x)) ->
   Message.components build m = Returned (VArr (g <$> l))) /\
  (forall (l1 l2 : list JsVal) (x : JsVal) (e : JsError),
     Message.data m !! "embeds" = Some (VArr (l1 ++ x :: l2)%list) ->
     (forall y, y ∈ l1 -> build y = Returned (g y)) ->
     build x = Threw e ->
     Message.embeds build m = Threw e).
Proof.
  unfold Message.embeds, Message.components, Message.get. repeat split.
  - intros -> H. simpl. now rewrite (mapOutcome_total build g l H).
  - intros -> H. simpl. now rewrite (mapOutcome_total build g l H).
  - intros l1 l2 x e -> H Hx. simpl.
    now rewrite (mapOutcome_throws build g l1 l2 x e H Hx).
Qed.

Lemma message_sequences_map_elementwise_witness :
  let tag := fun v : JsVal => VObj {[ "embed" := v ]} in
  let m := Message.mk {[ "embeds" := VArr [VStr "a"; VStr "b"] ]} in
  Message.embeds (fun v => Returned (tag v)) m
    = Returned (VArr [tag (VStr "a"); tag (VStr "b")]).
Proof.
  intros tag m.
  apply (message_sequences_map_elementwise (fun v => Returned (tag v)) tag m
           [VStr "a"; VStr "b"]).
  - reflexivity.
  - reflexivity.
Defined.

(** X7.  Update, then read: after an update whose payload carries a string
    [content], the message's string form is that string; after an update
    whose payload is an object without [content], it is what it was. *)
Theorem message_toString_after_update
    (m : Message.t) (p : gmap string JsVal) :
  (forall s : string,
     p !! "content" = Some (VStr s) ->
     Message.toString (snd (Message.parseData (VObj p) m)) = Returned (VStr s)) /\
  (p !! "content" = None ->
   Message.toString (snd (Message.parseData (VObj p) m)) = Message.toString m).
Proof.
  unfold Message.toString, Message.content, Message.get. split.
  - intros s Hs. rewrite Message_parseData_lookup. simpl. rewrite Hs. simpl.
    unfold or_else. simpl. destruct (String.eqb_spec s ""); [now subst|reflexivity].
  - intros Hn. rewrite Message_parseData_lookup. simpl. now rewrite Hn.
Qed.

Lemma message_toString_after_update_witness :
  Message.toString
    (snd (Message.parseData (VObj {[ "content" := VStr "edited" ]})
            (Message.mk {[ "id" := VStr "1"; "content" := VStr "hi" ]})))
  = Returned (VStr "edited").
Proof.
  apply (message_toString_after_update
           (Message.mk {[ "id" := VStr "1"; "content" := VStr "hi" ]})
           {[ "content" := VStr "edited" ]}).
  reflexivity.
Defined.

(** X8.  [system] is [false] exactly when the payload's [type] is a number
    and one of the four non-system message types; a payload without [type]
    counts as a system message. *)
Theorem message_system_types
    (Default Reply ChatInputCommand ContextMenuCommand : Z) (m : Message.t) :
  (Message.system Default Reply ChatInputCommand ContextMenuCommand m = false
   <-> exists n : Z,
         Message.get m "type" = VNum n /\
         (n = Default \/ n = Reply \/ n = ChatInputCommand
          \/ n = ContextMenuCommand)) /\
  (Message.data m !! "type" = None ->
   Message.system Default Reply ChatInputCommand ContextMenuCommand m = true).
Proof.
  unfold Message.system, Message.includes. split.
  - destruct (Message.get m "type") as [| |b|n|s|l|o] eqn:Hty; simpl;
      try (split; [discriminate | intros (n' & Hn & _); discriminate]).
    rewrite negb_false_iff, bool_decide_eq_true. split.
    + intros Hin. exists n. split; [reflexivity|].
      rewrite !elem_of_cons in Hin. destruct Hin as [?|[?|[?|[?|Hin]]]]; auto.
      now apply elem_of_nil in Hin.
    + intros (n' & [= <-] & Hn). rewrite !elem_of_cons. tauto.
  - unfold Message.get. now intros ->.
Qed.

Lemma message_system_types_witness :
  Message.system 0 19 20 23 (Message.mk {[ "id" := VStr "1" ]}) = true /\
  Message.system 0 19 20 23 (Message.mk {[ "type" := VNum 19 ]}) = false.
Proof.
  split.
  - apply (message_system_types 0 19 20 23 (Message.mk {[ "id" := VStr "1" ]})).
    reflexivity.
  - apply (message_system_types 0 19 20 23 (Message.mk {[ "type" := VNum 19 ]})).
    exists 19. split; [reflexivity|]. right. left. reflexivity.
Defined.

(** ** Resolving through a cached channel *)

Lemma channel_cached (m : Message.t) (c : Client) (l : loc) :
  truthy (Message.channelId m) = true ->
  cache_get (channels c) (Message.channelId m) = Some l ->
  Message.channel m c = (Returned (Some l), c).
Proof.
  intros Ht H. unfold Message.channel. rewrite Ht. unfold gets. now rewrite H.
Qed.

Lemma channel_guild_cached (m : Message.t) (c : Client) (l : loc)
    (o : ChannelObj) :
  truthy (Message.channelId m) = true ->
  cache_get (channels c) (Message.channelId m) = Some l ->
  channelObjs c !! l = Some o ->
  Message.channel_guild m c = (Returned (guild o), c).
Proof.
  intros Ht H Ho. unfold Message.channel_guild, bind.
  rewrite (channel_cached m c l Ht H). unfold deref. now rewrite Ho.
Qed.

Lemma guildId_through_channel (m : Message.t) (c : Client) (l gl : loc)
    (o : ChannelObj) (g : Guild) :
  nullish (Message.get m "guild_id") = true ->
  truthy (Message.channelId m) = true ->
  cache_get (channels c) (Message.channelId m) = Some l ->
  channelObjs c !! l = Some o ->
  guild o = Some gl ->
  guildObjs c !! gl = Some g ->
  Message.guildId m c = (Returned (guild_id g), c).
Proof.
  intros Hn Ht H Ho Hg Hgl. unfold Message.guildId. rewrite Hn. unfold bind.
  rewrite (channel_guild_cached m c l o Ht H Ho), Hg. unfold deref.
  now rewrite Hgl.
Qed.

(** X9.  The fallback chain: a message without a guild id of its own,
    whose channel is cached and belongs to a guild with a truthy id, has
    that guild's id as its [guildId], and its [guild] is the guild cached
    under that id if there is one and the channel's guild otherwise; it is
    never absent, and nothing is changed. *)
Theorem guild_resolved_through_channel (m : Message.t) (c : Client)
    (l gl : loc) (o : ChannelObj) (g : Guild) :
  nullish (Message.get m "guild_id") = true ->
  truthy (Message.channelId m) = true ->
  cache_get (channels c) (Message.channelId m) = Some l ->
  channelObjs c !! l = Some o ->
  guild o = Some gl ->
  guildObjs c !! gl = Some g ->
  truthy (guild_id g) = true ->
  Message.guildId m c = (Returned (guild_id g), c) /\
  Message.guild m c =
    (Returned (Some (default gl (cache_get (guilds c) (guild_id g)))), c).
Proof.
  intros Hn Ht H Ho Hg Hgl Hid.
  pose proof (guildId_through_channel m c l gl o g Hn Ht H Ho Hg Hgl) as Hgid.
  split; [exact Hgid|].
  unfold Message.guild, bind. rewrite Hgid, Hid, Hgid. unfold gets.
  destruct (cache_get (guilds c) (guild_id g)) as [l'|]; [reflexivity|].
  rewrite (channel_guild_cached m c l o Ht H Ho), Hg. reflexivity.
Qed.

Lemma guild_resolved_through_channel_witness :
  let m := Message.mk {[ "id" := VStr "1"; "channel_id" := VStr "10" ]} in
  let c := mkClient (mkCache [] 0) (mkCache [("10", 4%positive)] 0) (mkCache [] 0)
             ∅ {[ 4%positive := Channel.set_id (VStr "10")
                                  (Channel.blank (Some 9%positive)) ]}
             {[ 9%positive := mkGuild (VStr "5") ]} [] in
  Message.guildId m c = (Returned (VStr "5"), c) /\
  Message.guild m c = (Returned (Some 9%positive), c).
Proof.
  intros m c.
  apply (guild_resolved_through_channel m c 4%positive 9%positive
           (Channel.set_id (VStr "10") (Channel.blank (Some 9%positive)))
           (mkGuild (VStr "5"))); reflexivity.
Defined.

(** ** The jump-to URL *)

(** X10.  The URL of a message that has a guild id of its own names that
    guild; the URL of a message without one whose channel is not cached
    uses [@me] in its place.  Either way the URL ends with the channel id
    and the message id, and reading it changes nothing. *)
Theorem message_url_shape (m : Message.t) (c : Client) :
  (nullish (Message.get m "guild_id") = false ->
   Message.url m c =
     (Returned ("https://discord.com/channels/"
                +:+ toString (Message.get m "guild_id")
                +:+ "/" +:+ toString (Message.channelId m)
                +:+ "/" +:+ toString (Message.get m "id")), c)) /\
  (nullish (Message.get m "guild_id") = true ->
   cache_get (channels c) (Message.channelId m) = None ->
   Message.url m c =
     (Returned ("https://discord.com/channels/@me/"
                +:+ toString (Message.channelId m)
                +:+ "/" +:+ toString (Message.get m "id")), c)) /\
  snd (Message.url m c) = c.
Proof.
  repeat split.
  - intros Hn. unfold Message.url, bind, Message.guildId. rewrite Hn.
    unfold ret, coalesce. now rewrite Hn.
  - intros Hn Hc. unfold Message.url, bind.
    rewrite (guildId_uncached m c Hc), Hn. reflexivity.
  - unfold Message.url.
    apply reads_only_bind; [apply reads_only_guildId | auto with reads].
Qed.

Lemma message_url_shape_witness :
  let c := mkClient (mkCache [] 0) (mkCache [] 0) (mkCache [] 0) ∅ ∅ ∅ [] in
  Message.url (Message.mk {[ "id" := VStr "1"; "channel_id" := VStr "10";
                             "guild_id" := VStr "5" ]}) c
    = (Returned "https://discord.com/channels/5/10/1", c) /\
  Message.url (Message.mk {[ "id" := VStr "1"; "channel_id" := VStr "10" ]}) c
    = (Returned "https://discord.com/channels/@me/10/1", c).
Proof.
  intros c.
  destruct (message_url_shape
              (Message.mk {[ "id" := VStr "1"; "channel_id" := VStr "10";
                             "guild_id" := VStr "5" ]}) c) as (H1 & _ & _).
  destruct (message_url_shape
              (Message.mk {[ "id" := VStr "1"; "channel_id" := VStr "10" ]}) c)
    as (_ & H2 & _).
  split; [exact (H1 eq_refl) | exact (H2 eq_refl eq_refl)].
Defined.

(** ** Replying *)

(** X11.  A reply to a message whose channel is not cached is dropped: the
    call returns [undefined], [send] is not called, and the client is
    unchanged.  The options object has all the same been written to: it
    leaves the call with the [messageReference] of the message, its other
    fields as they were; for an object argument that object is the
    caller's own. *)
Theorem reply_dropped_without_channel
    (failIfNotExists : JsVal) (send : loc -> JsVal -> M Client JsVal)
    (m : Message.t) (content : MessageOptions) (c : Client) :
  cache_get (channels c) (Message.channelId m) = None ->
  let options : gmap string JsVal :=
    match content with
    | OptionsString s => {[ "content" := VStr s ]}
    | OptionsPayload o => o
    end in
  exists written reference : gmap string JsVal,
    Message.reply failIfNotExists send m content c
      = ((Returned VUndef, c), written) /\
    written !! "messageReference" = Some (VObj reference) /\
    (forall k : string, k <> "messageReference" -> written !! k = options !! k) /\
    reference !! "messageId" = Some (Message.get m "id") /\
    reference !! "channelId" = Some (Message.channelId m) /\
    reference !! "guildId"
      = Some (if nullish (Message.get m "guild_id") then VUndef
              else Message.get m "guild_id") /\
    reference !! "failIfNotExists" = Some (coalesce failIfNotExists (VBool false)).
Proof.
  intros H options.
  eexists _, _. split; [|split; [|split]].
  - unfold Message.reply, bind.
    rewrite (guildId_uncached m c H), (channel_uncached m c H). reflexivity.
  - apply lookup_insert_eq.
  - intros k Hk. now rewrite lookup_insert_ne.
  - repeat split.
Qed.

Lemma reply_dropped_without_channel_witness :
  let c := mkClient (mkCache [] 0) (mkCache [] 0) (mkCache [] 0) ∅ ∅ ∅ [] in
  let m := Message.mk {[ "id" := VStr "1"; "channel_id" := VStr "10" ]} in
  let own : gmap string JsVal := {[ "content" := VStr "hello" ]} in
  exists written reference : gmap string JsVal,
    Message.reply VUndef (fun _ _ => throw (Error "sent")) m
      (OptionsPayload own) c = ((Returned VUndef, c), written) /\
    written !! "messageReference" = Some (VObj reference) /\
    written <> own /\
    reference !! "messageId" = Some (VStr "1").
Proof.
  intros c m own.
  destruct (reply_dropped_without_channel VUndef
              (fun _ _ => throw (Error "sent")) m (OptionsPayload own) c)
    as (written & reference & Hrun & Href & _ & Hid & _).
  - reflexivity.
  - exists written, reference. split; [exact Hrun|]. split; [exact Href|].
    split; [|exact Hid].
    intros Heq. rewrite Heq in Href. discriminate Href.
Defined.

(** X12.  A reply to a message with a guild id of its own and a cached
    channel is one [send] on that channel.  What is sent has a
    [messageReference] with the message's id and channel id, its guild id,
    and [failIfNotExists] defaulting to [false]; it replaces any
    [messageReference] the caller gave, every other option is passed on as
    given, and a string is sent as [{content: string}].  What is sent is
    the options object itself, which leaves the call so written. *)
Theorem reply_sends_reference
    (failIfNotExists : JsVal) (send : loc -> JsVal -> M Client JsVal)
    (m : Message.t) (content : MessageOptions) (c : Client) (l : loc) :
  nullish (Message.get m "guild_id") = false ->
  truthy (Message.channelId m) = true ->
  cache_get (channels c) (Message.channelId m) = Some l ->
  let options : gmap string JsVal :=
    match content with
    | OptionsString s => {[ "content" := VStr s ]}
    | OptionsPayload o => o
    end in
  exists sent reference : gmap string JsVal,
    Message.reply failIfNotExists send m content c
      = (send l (VObj sent) c, sent) /\
    sent !! "messageReference" = Some (VObj reference) /\
    (forall k : string, k <> "messageReference" -> sent !! k = options !! k) /\
    reference !! "messageId" = Some (Message.get m "id") /\
    reference !! "channelId" = Some (Message.channelId m) /\
    reference !! "guildId" = Some (Message.get m "guild_id") /\
    reference !! "failIfNotExists" = Some (coalesce failIfNotExists (VBool false)).
Proof.
  intros Hn Ht H options.
  eexists _, _. split; [|split; [|split]].
  - unfold Message.reply, bind, Message.guildId. rewrite Hn. simpl.
    rewrite (channel_cached m c l Ht H). reflexivity.
  - apply lookup_insert_eq.
  - intros k Hk. now rewrite lookup_insert_ne.
  - repeat split.
Qed.

Lemma reply_sends_reference_witness :
  let c := mkClient (mkCache [] 0) (mkCache [("10", 4%positive)] 0) (mkCache [] 0)
             ∅ {[ 4%positive := Channel.blank None ]} ∅ [] in
  let m := Message.mk {[ "id" := VStr "1"; "channel_id" := VStr "10";
                         "guild_id" := VStr "5" ]} in
  exists sent reference : gmap string JsVal,
    Message.reply VUndef (fun _ v => ret v) m (OptionsString "hello") c
      = ((Returned (VObj sent), c), sent) /\
    sent !! "messageReference" = Some (VObj reference) /\
    sent !! "content" = Some (VStr "hello") /\
    reference !! "messageId" = Some (VStr "1") /\
    reference !! "failIfNotExists" = Some (VBool false).
Proof.
  intros c m.
  destruct (reply_sends_reference VUndef (fun _ v => ret v) m
              (OptionsString "hello") c 4%positive)
    as (sent & reference & Hrun & Href & Hrest & Hid & _ & _ & Hfail).
  - reflexivity.
  - reflexivity.
  - reflexivity.
  - exists sent, reference. split; [exact Hrun|]. split; [exact Href|].
    split; [|split; [exact Hid | exact Hfail]].
    rewrite Hrest by discriminate. reflexivity.
Defined.

(** ** Channel updates: errors and invariants *)

Lemma coalesce_string_not_nullish (v : JsVal) (s : string) :
  nullish (coalesce v (VStr s)) = false.
Proof. unfold coalesce. destruct (nullish v) eqn:H; [reflexivity | exact H]. Qed.

(** X13.  A payload that is [null], a boolean, a number or a string makes
    [parseData] throw a [TypeError] (from the [in] test) before anything is
    assigned: the channel is as it was. *)
Theorem channel_update_rejects_primitives
    (deconstruct : JsVal -> Outcome JsVal) (RawChannelTypes : JsVal -> JsVal)
    (c : ChannelObj) :
  let rejected (d : JsVal) :=
    exists msg : string,
      Channel.parseData deconstruct RawChannelTypes d c
        = (Threw (TypeError msg), c) in
  rejected VNull /\
  (forall b : bool, rejected (VBool b)) /\
  (forall n : Z, rejected (VNum n)) /\
  (forall s : string, rejected (VStr s)).
Proof. repeat split; intros; eexists; reflexivity. Qed.

(** X14.  An update is not all-or-nothing: when the payload carries an id
    on which [Snowflake.deconstruct] throws, [parseData] throws that error
    with the id already replaced, while name, type, guild and creation
    time are still the old ones. *)
Theorem channel_update_partial_on_throw
    (deconstruct : JsVal -> Outcome JsVal) (RawChannelTypes : JsVal -> JsVal)
    (o : gmap string JsVal) (c : ChannelObj) (v : JsVal) (e : JsError) :
  o !! "id" = Some v ->
  deconstruct v = Threw e ->
  Channel.parseData deconstruct RawChannelTypes (VObj o) c =
    (Threw e,
     mkChannel (createdTimestamp c) (createdAt c) v (name c) (guild c) (type c)).
Proof.
  intros Hid He. rewrite Channel_parseData_object, Hid. simpl. now rewrite He.
Qed.

Lemma channel_update_partial_on_throw_witness :
  let strict := fun v => match v with
                         | VStr _ => Returned (VNum 0)
                         | _ => Threw (TypeError "not a snowflake")
                         end in
  let c := mkChannel (VNum 0) (Some (mkDate (VNum 0))) (VStr "10")
             (VStr "general") None (VStr "GUILD_TEXT") in
  Channel.parseData strict (fun _ => VUndef)
      (VObj {[ "id" := VNum 11; "name" := VStr "renamed" ]}) c
    = (Threw (TypeError "not a snowflake"),
       mkChannel (VNum 0) (Some (mkDate (VNum 0))) (VNum 11)
         (VStr "general") None (VStr "GUILD_TEXT")).
Proof.
  intros strict c.
  apply (channel_update_partial_on_throw strict (fun _ => VUndef)
           {[ "id" := VNum 11; "name" := VStr "renamed" ]} c (VNum 11)).
  - reflexivity.
  - reflexivity.
Defined.

(** X15.  Applying the same payload a second time changes nothing more:
    the second call has the outcome of the first and leaves the channel as
    the first left it. *)
Theorem channel_update_idempotent
    (deconstruct : JsVal -> Outcome JsVal) (RawChannelTypes : JsVal -> JsVal)
    (d : JsVal) (c : ChannelObj) :
  Channel.parseData deconstruct RawChannelTypes d
    (snd (Channel.parseData deconstruct RawChannelTypes d c))
  = Channel.parseData deconstruct RawChannelTypes d c.
Proof.
  destruct d as [| |b|n|s|l|o]; try reflexivity.
  - rewrite !Channel_parseData_array.
    destruct (deconstruct (id c)) as [ts|e] eqn:Hd; simpl; now rewrite Hd.
  - rewrite !Channel_parseData_object.
    destruct (o !! "id") as [v|] eqn:Hid; simpl.
    + destruct (deconstruct v) as [ts|e] eqn:Hd; simpl; rewrite ?Hd;
        [destruct (o !! "name"); reflexivity | now destruct c].
    + destruct (deconstruct (id c)) as [ts|e] eqn:Hd; simpl; rewrite ?Hd;
        [destruct (o !! "name"); reflexivity | reflexivity].
Qed.

(** X16.  After every update that goes through (on a payload other than
    [undefined]), the creation time is the one of the channel's id:
    [createdTimestamp] is what [Snowflake.deconstruct] returns on [id], and
    [createdAt] is the date of [createdTimestamp].  The type is then never
    [undefined] or [null], and the guild is untouched. *)
Theorem channel_update_derived_fields
    (deconstruct : JsVal -> Outcome JsVal) (RawChannelTypes : JsVal -> JsVal)
    (d : JsVal) (c c' : ChannelObj) :
  Channel.parseData deconstruct RawChannelTypes d c = (Returned VUndef, c') ->
  deconstruct (id c') = Returned (createdTimestamp c') /\
  createdAt c' = Some (mkDate (createdTimestamp c')) /\
  nullish (type c') = false /\
  guild c' = guild c.
Proof.
  destruct d as [| |b|n|s|l|o]; try discriminate.
  - rewrite Channel_parseData_array.
    destruct (deconstruct (id c)) as [ts|e] eqn:Hd; [|discriminate].
    intros [= <-]. simpl. repeat split; [exact Hd|].
    apply coalesce_string_not_nullish.
  - rewrite Channel_parseData_object. simpl.
    destruct (deconstruct _) as [ts|e] eqn:Hd; [|discriminate].
    intros [= <-]. simpl. repeat split; [exact Hd|].
    apply coalesce_string_not_nullish.
Qed.

Lemma channel_update_derived_fields_witness :
  let stamp := fun v => match v with
                        | VStr "10" => Returned (VNum 1420070400000)
                        | _ => Returned (VNum 0)
                        end in
  let c' := mkChannel (VNum 1420070400000) (Some (mkDate (VNum 1420070400000)))
              (VStr "10") VUndef None (VStr "UNKNOWN") in
  stamp (id c') = Returned (createdTimestamp c') /\
  createdAt c' = Some (mkDate (createdTimestamp c')) /\
  nullish (type c') = false /\
  guild c' = guild (Channel.blank None).
Proof.
  intros stamp c'.
  apply (channel_update_derived_fields stamp (fun _ => VUndef)
           (VObj {[ "id" := VStr "10" ]}) (Channel.blank None) c').
  reflexivity.
Defined.

(** X17.  A payload whose raw type the table does not know, or that has no
    type at all, makes the channel an unknown one: after the update
    [isUnknown] holds and [isText] does not, whatever the channel was. *)
Theorem channel_unknown_type
    (deconstruct : JsVal -> Outcome JsVal) (RawChannelTypes : JsVal -> JsVal)
    (o : gmap string JsVal) (c c' : ChannelObj) (r : JsVal) :
  Channel.parseData deconstruct RawChannelTypes (VObj o) c = (Returned r, c') ->
  nullish (RawChannelTypes (default VUndef (o !! "type"))) = true ->
  type c' = VStr "UNKNOWN" /\
  Channel.isUnknown c' = true /\
  Channel.isText c' = false.
Proof.
  rewrite Channel_parseData_object. simpl.
  destruct (deconstruct _) as [ts|e]; [|discriminate].
  intros [= <- <-] Hn. unfold Channel.isUnknown, Channel.isText, coalesce. simpl.
  rewrite Hn. repeat split.
Qed.

Lemma channel_unknown_type_witness :
  let table := fun v => match v with VNum 0 => VStr "GUILD_TEXT" | _ => VUndef end in
  let c := mkChannel (VNum 0) (Some (mkDate (VNum 0))) (VStr "10")
             (VStr "general") None (VStr "GUILD_TEXT") in
  let c' := mkChannel (VNum 0) (Some (mkDate (VNum 0))) (VStr "10")
              (VStr "renamed") None (VStr "UNKNOWN") in
  Channel.isText c = true /\
  Channel.isUnknown c' = true /\
  Channel.isText c' = false.
Proof.
  intros table c c'. split; [reflexivity|].
  apply (channel_unknown_type (fun _ => Returned (VNum 0)) table
           {[ "name" := VStr "renamed" ]} c c' VUndef).
  - reflexivity.
  - reflexivity.
Defined.

(** ** Deleting a channel: rejection and empty answers *)

(** X19.  When the remote rejects the request, [delete] throws the
    rejection: the request has been handed over, and no channel is
    constructed; caches and stores are as before. *)
Theorem channel_delete_rejected
    (deconstruct : JsVal -> Outcome JsVal) (RawChannelTypes : JsVal -> JsVal)
    (this : loc) (reason : JsVal) (c : Client) (o : ChannelObj) (e : JsError) :
  channelObjs c !! this = Some o ->
  Channel.delete deconstruct RawChannelTypes (Threw e) this reason c =
    (Threw e,
     mkClient (users c) (channels c) (guilds c) (userObjs c) (channelObjs c)
       (guildObjs c)
       (requests c ++ [mkRequest ("channels/" +:+ toString (id o)) "DELETE" ""
                         reason])%list).
Proof.
  intros Hthis.
  unfold Channel.delete, Channel.requester_make, deref, bind, lift, modify.
  rewrite Hthis. reflexivity.
Qed.

Lemma channel_delete_rejected_witness :
  let c := mkClient (mkCache [] 0) (mkCache [("10", 1%positive)] 0) (mkCache [] 0)
             ∅ {[ 1%positive := Channel.set_id (VStr "10") (Channel.blank None) ]}
             ∅ [] in
  Channel.delete (fun _ => Returned (VNum 0)) (fun _ => VUndef)
    (Threw (Error "DiscordAPIError: Missing Permissions (403)")) 1%positive
    VUndef c
  = (Threw (Error "DiscordAPIError: Missing Permissions (403)"),
     mkClient (users c) (channels c) (guilds c) (userObjs c) (channelObjs c)
       (guildObjs c) [mkRequest "channels/10" "DELETE" "" VUndef]).
Proof.
  intros c.
  apply (channel_delete_rejected (fun _ => Returned (VNum 0)) (fun _ => VUndef)
           1%positive VUndef c (Channel.set_id (VStr "10") (Channel.blank None))).
  reflexivity.
Defined.

(** X20.  When the remote answers without a payload ([undefined]),
    [delete] still returns a new channel: one whose id, name, type and
    creation time are all [undefined], with the guild of the deleted
    channel. *)
Theorem channel_delete_without_payload
    (deconstruct : JsVal -> Outcome JsVal) (RawChannelTypes : JsVal -> JsVal)
    (this : loc) (reason : JsVal) (c : Client) (o : ChannelObj) :
  channelObjs c !! this = Some o ->
  exists (l : loc) (c' : Client),
    Channel.delete deconstruct RawChannelTypes (Returned VUndef) this reason c
      = (Returned l, c') /\
    l <> this /\
    channelObjs c' !! l
      = Some (mkChannel VUndef None VUndef VUndef (guild o) VUndef) /\
    channelObjs c' !! this = Some o.
Proof.
  intros Hthis.
  assert (channelObjs c !! fresh (dom (channelObjs c)) = None) as Hfresh.
  { apply not_elem_of_dom. apply is_fresh. }
  assert (fresh (dom (channelObjs c)) <> this) as Hne.
  { intros Heq. rewrite Heq, Hthis in Hfresh. discriminate. }
  eexists _, _. split; [|split; [|split]].
  - unfold Channel.delete, Channel.requester_make, Channel.new, deref, bind,
      lift, modify, gets, ret. simpl.
    rewrite Hthis. simpl. rewrite Hthis. reflexivity.
  - exact Hne.
  - simpl. apply lookup_insert_eq.
  - simpl. rewrite lookup_insert_ne by exact Hne. exact Hthis.
Qed.

Lemma channel_delete_without_payload_witness :
  let o := mkChannel (VNum 0) (Some (mkDate (VNum 0))) (VStr "10")
             (VStr "general") (Some 9%positive) (VStr "GUILD_TEXT") in
  let c := mkClient (mkCache [] 0) (mkCache [("10", 1%positive)] 0) (mkCache [] 0)
             ∅ {[ 1%positive := o ]} ∅ [] in
  exists (l : loc) (c' : Client),
    Channel.delete (fun _ => Returned (VNum 0)) (fun _ => VUndef)
      (Returned VUndef) 1%positive VUndef c = (Returned l, c') /\
    Channel.toString <$> channelObjs c' !! l = Some "<#undefined>".
Proof.
  intros o c.
  destruct (channel_delete_without_payload (fun _ => Returned (VNum 0))
              (fun _ => VUndef) 1%positive VUndef c o eq_refl)
    as (l & c' & Hrun & _ & Hnew & _).
  exists l, c'. split; [exact Hrun|]. now rewrite Hnew.
Defined.

(** ** The JSON check on responses that are not objects *)

(** X21.  On a [null] or [undefined] response [verifyForJSONStatusCode]
    throws a [TypeError] (from reading [code]), not a rejection carrying
    the endpoint; on a boolean, a number, a string or an array it returns
    normally, whatever the request. *)
Theorem json_check_on_non_objects
    (endpoint : string) (data : Body) (method : string) :
  verifyForJSONStatusCode VNull endpoint data method
    = Threw (TypeError "Cannot read properties of null (reading 'code')") /\
  verifyForJSONStatusCode VUndef endpoint data method
    = Threw (TypeError "Cannot read properties of undefined (reading 'code')") /\
  (forall b : bool,
     verifyForJSONStatusCode (VBool b) endpoint data method = Returned tt) /\
  (forall n : Z,
     verifyForJSONStatusCode (VNum n) endpoint data method = Returned tt) /\
  (forall s : string,
     verifyForJSONStatusCode (VStr s) endpoint data method = Returned tt) /\
  (forall l : list JsVal,
     verifyForJSONStatusCode (VArr l) endpoint data method = Returned tt).
Proof. repeat split. Qed.

(** ** The mention of a channel *)

(** X22.  A channel built from a payload whose id is the string [s]
    renders as the mention [<#s>]; one built from a payload without an id
    renders as [<#undefined>]. *)
Theorem channel_mention_of_payload
    (deconstruct : JsVal -> Outcome JsVal) (RawChannelTypes : JsVal -> JsVal)
    (o : gmap string JsVal) (g : option loc) (c : ChannelObj) :
  Channel.construct deconstruct RawChannelTypes (VObj o) g = Returned c ->
  (forall s : string,
     o !! "id" = Some (VStr s) -> Channel.toString c = "<#" +:+ s +:+ ">") /\
  (o !! "id" = None -> Channel.toString c = "<#undefined>").
Proof.
  unfold Channel.construct. rewrite Channel_parseData_object. simpl.
  destruct (deconstruct _) as [ts|e]; [|discriminate].
  intros [= <-]. unfold Channel.toString. simpl.
  split; [intros s Hs | intros Hs]; rewrite Hs; reflexivity.
Qed.

Lemma channel_mention_of_payload_witness :
  Channel.toString
    (mkChannel (VNum 0) (Some (mkDate (VNum 0))) (VStr "10") (VStr "general")
       None (VStr "UNKNOWN")) = "<#10>".
Proof.
  destruct (channel_mention_of_payload (fun _ => Returned (VNum 0))
              (fun _ => VUndef) {[ "id" := VStr "10"; "name" := VStr "general" ]}
              None
              (mkChannel (VNum 0) (Some (mkDate (VNum 0))) (VStr "10")
                 (VStr "general") None (VStr "UNKNOWN"))) as (Hs & _).
  - reflexivity.
  - apply (Hs "10"). reflexivity.
Defined.
